(** * Delegated cgroup scopes (bin/demo.py): a shallow embedding

    The program talks to three things outside itself: the mount table
    (psutil), the cgroup file system (os.rmdir, os.mkdir, open/write) and
    systemd over D-Bus.  Each such call is a primitive of a small
    state-and-exception monad over a [world]; the methods of the two
    classes, [CgMode] and [DelegatedScope], are written in that monad in the
    order of the Python text. *)

From Stdlib Require Import String Ascii ZArith List Lia.
From stdpp Require Import base tactics option list gmap strings pretty.

Open Scope string_scope.
Open Scope list_scope.
Open Scope Z_scope.

(** ** Python strings *)

Module Py.

(** [s.startswith(prefix)] *)
Definition startswith (s prefix : string) : bool := String.prefix prefix s.

(** [s.endswith(suffix)] *)
Definition endswith (s suffix : string) : bool :=
  let n := String.length s in
  let m := String.length suffix in
  (m <=? n)%nat && String.eqb (String.substring (n - m) m s) suffix.

(** [s.find(sub)]: the lowest index where [sub] occurs, or -1. *)
Definition find (s sub : string) : Z :=
  match String.index 0 sub s with
  | Some i => Z.of_nat i
  | None => -1
  end.

(** [str(n)] for an int. *)
Definition str (n : Z) : string := pretty n.

End Py.

(** ** Exceptions

    Only the classes the program raises or catches are kept apart; [OSError]
    stands for every other error of the file system, with its errno. *)

Inductive exn : Type :=
| ValueError (msg : string)
| AttributeError (msg : string)
| FileNotFoundError
| FileExistsError
| OSError (errno : Z)
| DBusException (dbus_name : string)
| ConnectionError (msg : string)
| RuntimeError (msg : string)
| KeyboardInterrupt.

(** [isinstance(e, Exception)]: everything but [KeyboardInterrupt], which
    derives from [BaseException] only. *)
Definition is_Exception (e : exn) : bool :=
  match e with KeyboardInterrupt => false | _ => true end.

Definition is_FileNotFoundError (e : exn) : bool :=
  match e with FileNotFoundError => true | _ => false end.

Definition is_DBusException (e : exn) : bool :=
  match e with DBusException _ => true | _ => false end.

(** [e.get_dbus_name()] *)
Definition get_dbus_name (e : exn) : string :=
  match e with DBusException n => n | _ => "" end.

(** [str(e)] *)
Definition exn_str (e : exn) : string :=
  match e with
  | ValueError m | AttributeError m | ConnectionError m | RuntimeError m => m
  | DBusException n => n
  | FileNotFoundError => "No such file or directory"
  | FileExistsError => "File exists"
  | OSError n => Py.str n
  | KeyboardInterrupt => ""
  end.

Inductive result (A : Type) : Type :=
| Return (a : A)
| Raise (e : exn).
Arguments Return {A} a.
Arguments Raise {A} e.

(** ** The monad: a state, and a value or an exception *)

Definition M (S A : Type) : Type := S -> result A * S.

Definition ret {S A} (a : A) : M S A := fun s => (Return a, s).

Definition raise {S A} (e : exn) : M S A := fun s => (Raise e, s).

Definition bind {S A B} (m : M S A) (k : A -> M S B) : M S B :=
  fun s =>
    match m s with
    | (Return a, s') => k a s'
    | (Raise e, s') => (Raise e, s')
    end.

(** [try: m  except ...: h]: the handler [h] picks the first [except] clause
    that matches, or [None] when the exception passes through. *)
Definition try_except {S A} (m : M S A) (h : exn -> option (M S A)) : M S A :=
  fun s =>
    match m s with
    | (Return a, s') => (Return a, s')
    | (Raise e, s') =>
        match h e with
        | Some handler => handler s'
        | None => (Raise e, s')
        end
    end.

Definition get {S} : M S S := fun s => (Return s, s).
Definition put {S} (s : S) : M S unit := fun _ => (Return tt, s).

Declare Scope py_scope.
Delimit Scope py_scope with py.
Notation "x <- m ;; k" := (bind m (fun x => k))
  (at level 100, m at next level, right associativity) : py_scope.
Notation "m ;; k" := (bind m (fun _ => k))
  (at level 100, right associativity) : py_scope.
Open Scope py_scope.

(** [for x in xs: acc = body(x, acc)], the loop variable [acc] standing for
    the locals the body assigns. *)
Fixpoint for_in {S A B} (xs : list A) (acc : B) (body : A -> B -> M S B) : M S B :=
  match xs with
  | [] => ret acc
  | x :: xs' => acc' <- body x acc ;; for_in xs' acc' body
  end.

(** ** The world outside the process *)

(** One row of [psutil.disk_partitions(all=True)]. *)
Record sdiskpart : Type := {
  device : string;
  mountpoint : string;
  fstype : string;
  opts : string
}.

(** A D-Bus value, as far as the unit properties need one. *)
Inductive variant : Type :=
| VBool (b : bool)
| VString (s : string)
| VUInt32s (l : list Z).

(** Every call that leaves the process. *)
Inductive call : Type :=
| DiskPartitions
| Getpid
| Rmdir (path : string)
| Mkdir (path : string)
| OpenW (path : string)
| FWrite (path data : string)
| GetObject (bus_name object_path : string)
| StartTransientUnit (name mode : string) (properties : list (string * variant))
| StopUnit (name mode : string)
| Sleep
| Popen (args : list string)
| Wait
| LogInfo (msg : string)
| LogError (msg : string).

(** A call with how it ended: [None] when it returned. *)
Definition event : Type := call * option exn.

(** The world: the mount table, the directories and files of the cgroup file
    system, the units systemd has, the history of calls, and the faults of
    the environment.  [fault history c] is the exception the environment
    answers call [c] with after [history], if any (a busy cgroup, a missing
    parent, a refused connection, ...); it is arbitrary, so a statement over
    every world covers every way the calls can fail. *)
Record world : Type := {
  mounts : list sdiskpart;
  pid : Z;
  dirs : gset string;
  files : gmap string string;
  units : gset string;
  log : list event;
  fault : list event -> call -> option exn
}.

Definition record (c : call) (o : option exn) (w : world) : world :=
  {| mounts := mounts w; pid := pid w; dirs := dirs w; files := files w;
     units := units w; log := log w ++ [(c, o)]; fault := fault w |}.

Definition set_dirs (d : gset string) (w : world) : world :=
  {| mounts := mounts w; pid := pid w; dirs := d; files := files w;
     units := units w; log := log w; fault := fault w |}.

Definition set_files (f : gmap string string) (w : world) : world :=
  {| mounts := mounts w; pid := pid w; dirs := dirs w; files := f;
     units := units w; log := log w; fault := fault w |}.

Definition set_units (u : gset string) (w : world) : world :=
  {| mounts := mounts w; pid := pid w; dirs := dirs w; files := files w;
     units := u; log := log w; fault := fault w |}.

Definition outcome {A} (r : result A) : option exn :=
  match r with Return _ => None | Raise e => Some e end.

(** A call [c]: the environment's fault if it has one for it now (the world
    is then left as it was), else what the call does when all goes well;
    either way the call and its outcome enter the history. *)
Definition syscall {A} (c : call) (ideal : world -> result A * world) : M world A :=
  fun w =>
    match fault w (log w) c with
    | Some e => (Raise e, record c (Some e) w)
    | None => let '(r, w') := ideal w in (r, record c (outcome r) w')
    end.

Module Sys.

(** [psutil.disk_partitions(all=True)] *)
Definition disk_partitions : M world (list sdiskpart) :=
  syscall DiskPartitions (fun w => (Return (mounts w), w)).

(** [os.getpid()] *)
Definition getpid : M world Z :=
  syscall Getpid (fun w => (Return (pid w), w)).

(** [os.rmdir(path)] *)
Definition rmdir (path : string) : M world unit :=
  syscall (Rmdir path) (fun w =>
    if bool_decide (path ∈ dirs w)
    then (Return tt, set_dirs (dirs w ∖ {[path]}) w)
    else (Raise FileNotFoundError, w)).

(** [os.mkdir(path)] *)
Definition mkdir (path : string) : M world unit :=
  syscall (Mkdir path) (fun w =>
    if bool_decide (path ∈ dirs w)
    then (Raise FileExistsError, w)
    else (Return tt, set_dirs ({[path]} ∪ dirs w) w)).

(** [open(path, 'w')]: the file is there and empty afterwards. *)
Definition open_w (path : string) : M world unit :=
  syscall (OpenW path) (fun w => (Return tt, set_files (<[path := ""]> (files w)) w)).

(** [f.write(data)] and the close that flushes it. *)
Definition write (path data : string) : M world unit :=
  syscall (FWrite path data) (fun w => (Return tt, set_files (<[path := data]> (files w)) w)).

(** [with open(path, 'w') as f: f.write(data)] *)
Definition with_open_w_write (path data : string) : M world unit :=
  open_w path ;; write path data.

(** [SystemBus().get_object(bus_name, object_path)] *)
Definition get_object (bus_name object_path : string) : M world unit :=
  syscall (GetObject bus_name object_path) (fun w => (Return tt, w)).

(** [systemd.StartTransientUnit(name, mode, properties, [])] *)
Definition start_transient_unit (name mode : string)
    (properties : list (string * variant)) : M world unit :=
  syscall (StartTransientUnit name mode properties) (fun w =>
    if bool_decide (name ∈ units w)
    then (Raise (DBusException "org.freedesktop.systemd1.UnitExists"), w)
    else (Return tt, set_units ({[name]} ∪ units w) w)).

(** [systemd.StopUnit(name, mode)] *)
Definition stop_unit (name mode : string) : M world unit :=
  syscall (StopUnit name mode) (fun w =>
    if bool_decide (name ∈ units w)
    then (Return tt, set_units (units w ∖ {[name]}) w)
    else (Raise (DBusException "org.freedesktop.systemd1.NoSuchUnit"), w)).

(** [time.sleep(0.1)] *)
Definition sleep : M world unit :=
  syscall Sleep (fun w => (Return tt, w)).

(** [subprocess.Popen(args, stderr=None)] *)
Definition popen (args : list string) : M world unit :=
  syscall (Popen args) (fun w => (Return tt, w)).

(** [s.wait()] *)
Definition wait : M world unit :=
  syscall Wait (fun w => (Return tt, w)).

(** [logging.info(msg)] and [logging.error(msg)] do not fail. *)
Definition logging_info (msg : string) : M world unit :=
  fun w => (Return tt, record (LogInfo msg) None w).

Definition logging_error (msg : string) : M world unit :=
  fun w => (Return tt, record (LogError msg) None w).

End Sys.

(** ** class CgMode *)

Module CgMode.

Definition LEGACY : Z := 1.
Definition HYBRID : Z := 2.
Definition UNIFIED : Z := 3.

(** The object: [_mode] is [None] while the attribute has not been
    assigned.  (The Python value None never survives [__init__], which
    raises on it.) *)
Record t : Type := { _mode : option Z }.

(** The dict comprehension of [__init__]: a later row replaces an earlier
    one with the same mount point. *)
Definition cgroup_mounts (parts : list sdiskpart) : gmap string sdiskpart :=
  foldl (fun d p =>
           if Py.startswith (mountpoint p) "/sys/fs/cgroup"
           then <[mountpoint p := p]> d else d)
        ∅ parts.

(** The lambda [named_hierarchy_is]; a row of the table is a non-empty
    tuple and so true, [None] is false. *)
Definition named_hierarchy_is (mount : option sdiskpart) (fstype' : string) : bool :=
  match mount with
  | None => false
  | Some m =>
      String.eqb (fstype m) fstype'
      && negb (Py.find (opts m) "name=systemd" =? -1)
  end.

Definition __init__ : M world t :=
  parts <- Sys.disk_partitions ;;
  let cgroup_mounts := cgroup_mounts parts in
  let mnt_root := cgroup_mounts !! "/sys/fs/cgroup" in
  let mnt_unified := cgroup_mounts !! "/sys/fs/cgroup/unified" in
  let mnt_systemd := cgroup_mounts !! "/sys/fs/cgroup/systemd" in
  match mnt_root with
  | None => ret {| _mode := None |}
  | Some root =>
      let mode : option Z :=
        if String.eqb (fstype root) "cgroup2" then Some UNIFIED
        else if String.eqb (fstype root) "tmpfs" && named_hierarchy_is mnt_systemd "cgroup"
        then Some LEGACY
        else if String.eqb (fstype root) "tmpfs" && named_hierarchy_is mnt_systemd "cgroup2"
        then Some HYBRID
        else None in
      match mode with
      | None => raise (ValueError "Failed to detect cgroup mode.")
      | Some m => ret {| _mode := Some m |}
      end
  end.

(** [self._mode], an [AttributeError] when it was never assigned. *)
Definition get_mode (self : t) : result Z :=
  match _mode self with
  | Some m => Return m
  | None => Raise (AttributeError "'CgMode' object has no attribute '_mode'")
  end.

(** [self == other] for an int [other] ([__eq__], first branch). *)
Definition __eq__ (self : t) (other : Z) : result bool :=
  match get_mode self with
  | Return m => Return (m =? other)
  | Raise e => Raise e
  end.

(** [self != other]: Python negates what [__eq__] returns. *)
Definition __ne__ (self : t) (other : Z) : result bool :=
  match __eq__ self other with
  | Return b => Return (negb b)
  | Raise e => Raise e
  end.

(** [__str__] *)
Definition __str__ (self : t) : result string :=
  match get_mode self with
  | Raise e => Raise e
  | Return m =>
      Return (if m =? HYBRID then "hybrid"
              else if m =? LEGACY then "legacy"
              else if m =? UNIFIED then "unified"
              else "")
  end.

End CgMode.

(** ** class DelegatedScope *)

Module DelegatedScope.

(** The attributes [__init__] assigns. *)
Record t : Type := {
  _cgmode : CgMode.t;
  _slice : string;
  _scope : string;
  _cgpath : string;
  _subcgroups : gset string
}.

(** A method runs on the object it was called on and on the world. *)
Record machine : Type := { self : t; sys : world }.

(** A call to the outside from inside a method. *)
Definition os {A} (m : M world A) : M machine A :=
  fun st =>
    let '(r, w) := m (sys st) in (r, {| self := self st; sys := w |}).

(** A computation with no effect but its value or exception. *)
Definition eval {S A} (r : result A) : M S A := fun s => (r, s).

Definition this : M machine t := fun st => (Return (self st), st).

(** [self._subcgroups.add(name)] *)
Definition subcgroups_add (name : string) : M machine unit :=
  fun st =>
    (Return tt,
     {| self := {| _cgmode := _cgmode (self st); _slice := _slice (self st);
                   _scope := _scope (self st); _cgpath := _cgpath (self st);
                   _subcgroups := {[name]} ∪ _subcgroups (self st) |};
        sys := sys st |}).

(** The truth value of the builtin [str], a class: always true. *)
Definition bool_of_builtin_str : bool := true.

(** The controllers of the legacy loops, in the order of the tuple. *)
Definition controllers : list string := ["cpu"; "memory"; "blkio"; "pids"].

Definition _connect_systemd : M machine unit :=
  try_except
    (os (Sys.get_object "org.freedesktop.systemd1" "/org/freedesktop/systemd1"))
    (fun e =>
       if is_Exception e
       then Some (raise (ConnectionError "Failed to connect to systemd over D-Bus"))
       else None).

Definition _start_unit : M machine unit :=
  try_except
    (_connect_systemd ;;
     s <- this ;;
     pid <- os Sys.getpid ;;
     os (Sys.start_transient_unit (_scope s) "replace"
           [("PIDs", VUInt32s [pid]);
            ("Slice", VString (_slice s));
            ("Delegate", VBool true);
            ("CPUAccounting", VBool true);
            ("MemoryAccounting", VBool true);
            ("BlockIOAccounting", VBool true);
            ("TasksAccounting", VBool true)]))
    (fun e =>
       if is_DBusException e then
         Some (if String.eqb (get_dbus_name e) "org.freedesktop.systemd1.UnitExists"
               then os (Sys.logging_info "Scope unit already exists, rusing.")
               else raise e)
       else if is_Exception e then
         Some (raise (RuntimeError "Failed to start scope unit"))
       else None) ;;
  os Sys.sleep.

Definition _stop_unit : M machine unit :=
  try_except
    (_connect_systemd ;;
     s <- this ;;
     os (Sys.stop_unit (_scope s) "replace"))
    (fun e =>
       if is_Exception e
       then Some (os (Sys.logging_error "Failed to stop scope unit: {e}"))
       else None).

(** [__del__] *)
Definition __del__ : M machine unit := _stop_unit.

(** Runs the rest of [__init__] on the object built so far, and hands the
    object out when it returns. *)
Definition construct (obj : t) (body : M machine unit) : M world t :=
  fun w =>
    match body {| self := obj; sys := w |} with
    | (Return _, st) => (Return (self st), sys st)
    | (Raise e, st) => (Raise e, sys st)
    end.

Definition hybrid_message : string :=
  "Hybrid cgroup mode is not support. Either boot to legacy (systemd.legacy_systemd_cgroup_controller) or full unified mode (systemd.unified_cgroup_hierarchy)".

Definition __init__ (name slice : string) : M world t :=
  if negb (Py.endswith slice ".slice") then raise (ValueError "Invalid slice name.")
  else if negb (Py.endswith name ".scope") then raise (ValueError "Invalid scope name.")
  else
    cgmode <- CgMode.__init__ ;;
    hybrid <- eval (CgMode.__eq__ cgmode CgMode.HYBRID) ;;
    if hybrid : bool then raise (ValueError hybrid_message)
    else
      legacy <- eval (CgMode.__eq__ cgmode CgMode.LEGACY) ;;
      construct
        {| _cgmode := cgmode;
           _slice := slice;
           _scope := name;
           _cgpath := "/sys/fs/cgroup/" +:+ (if legacy : bool then "systemd/" else "")
                      +:+ slice +:+ "/" +:+ name;
           _subcgroups := ∅ |}
        _start_unit.

(** The text [Provide cgroup name, e.g. "manager".] *)
Definition provide_name_message : string :=
  let q := String (Ascii.ascii_of_nat 34) EmptyString in
  "Provide cgroup name, e.g. " +:+ q +:+ "manager" +:+ q +:+ ".".

Definition create_subcgroup (name : string) : M machine (option (list string)) :=
  let result : list string := [] in
  if negb bool_of_builtin_str then
    os (Sys.logging_error provide_name_message) ;;
    ret None
  else
    s <- this ;;
    let cgdir := _cgpath s +:+ "/" +:+ name in
    try_except (os (Sys.rmdir cgdir))
               (fun e => if is_FileNotFoundError e then Some (ret tt) else None) ;;
    os (Sys.mkdir cgdir) ;;
    let result := (result ++ [cgdir]) in
    legacy <- eval (CgMode.__eq__ (_cgmode s) CgMode.LEGACY) ;;
    result <- (if legacy : bool then
                 for_in controllers result (fun c result =>
                   let cgdir := "/sys/fs/cgroup/" +:+ c +:+ "/" +:+ _slice s +:+ "/"
                                +:+ _scope s +:+ "/" +:+ name in
                   try_except (os (Sys.rmdir cgdir))
                              (fun e => if is_FileNotFoundError e then Some (ret tt) else None) ;;
                   os (Sys.mkdir cgdir) ;;
                   ret (result ++ [cgdir]))
               else ret result) ;;
    subcgroups_add name ;;
    ret (Some result).

Definition migrate_pid (subcgroup : string) (pid : Z) : M machine unit :=
  s <- this ;;
  (if negb (bool_decide (subcgroup ∈ _subcgroups s))
   then create_subcgroup subcgroup ;; ret tt
   else ret tt) ;;
  s <- this ;;
  let procs := _cgpath s +:+ "/" +:+ subcgroup +:+ "/cgroup.procs" in
  os (Sys.with_open_w_write procs (Py.str pid)) ;;
  legacy <- eval (CgMode.__eq__ (_cgmode s) CgMode.LEGACY) ;;
  if legacy : bool then
    for_in controllers tt (fun c _ =>
      let procs := "/sys/fs/cgroup/" +:+ c +:+ "/" +:+ _slice s +:+ "/"
                   +:+ _scope s +:+ "/" +:+ subcgroup +:+ "/cgroup.procs" in
      os (Sys.with_open_w_write procs (Py.str pid)))
  else ret tt.

(** [__str__]: [s.stdout] is None, no pipe having been asked for. *)
Definition __str__ : M machine string :=
  s <- this ;;
  try_except
    (os (Sys.popen ["systemd-cgls"; "--no-pager"; _cgpath s]) ;;
     os Sys.wait ;;
     ret "None")
    (fun e =>
       if is_Exception e
       then Some (os (Sys.logging_info ("Failed to run systemd-cgls: " +:+ exn_str e)) ;;
                  ret "")
       else None).

Definition delegate_resource_control : M machine unit :=
  s <- this ;;
  not_unified <- eval (CgMode.__ne__ (_cgmode s) CgMode.UNIFIED) ;;
  if not_unified : bool then ret tt
  else os (Sys.with_open_w_write (_cgpath s +:+ "/cgroup.subtree_control")
                                 "+cpu +memory +pids +io").

End DelegatedScope.

(** ** The vocabulary of the specification *)

Module Spec.

Import DelegatedScope.

(** The spec's error classes, as the exceptions the program raises for
    them (all are [ValueError]s, told apart by their message). *)
Definition DetectionError : exn := ValueError "Failed to detect cgroup mode.".
Definition UnsupportedModeError : exn := ValueError hybrid_message.
Definition NameError (e : exn) : Prop :=
  e = ValueError "Invalid slice name." \/ e = ValueError "Invalid scope name.".

Definition ends_with (s suffix : string) : Prop := exists pre, s = pre +:+ suffix.

Definition occurs_in (sub s : string) : Prop :=
  exists i, String.substring i (String.length sub) s = sub.

(** The row the mount table lists last for a mount point. *)
Definition mount_at (parts : list sdiskpart) (mp : string) : option sdiskpart :=
  last (filter (fun p => mountpoint p = mp) parts).

Definition root_mount (parts : list sdiskpart) : option sdiskpart :=
  mount_at parts "/sys/fs/cgroup".

(** The named systemd mount is of type [ty] and has the name=systemd
    option. *)
Definition named_systemd (parts : list sdiskpart) (ty : string) : Prop :=
  exists m, mount_at parts "/sys/fs/cgroup/systemd" = Some m
            /\ fstype m = ty /\ occurs_in "name=systemd" (opts m).

Definition root_of_type (parts : list sdiskpart) (ty : string) : Prop :=
  exists root, root_mount parts = Some root /\ fstype root = ty.

Definition unified_pattern (parts : list sdiskpart) : Prop :=
  root_of_type parts "cgroup2".

Definition legacy_pattern (parts : list sdiskpart) : Prop :=
  root_of_type parts "tmpfs" /\ named_systemd parts "cgroup".

Definition hybrid_pattern (parts : list sdiskpart) : Prop :=
  root_of_type parts "tmpfs" /\ named_systemd parts "cgroup2".

Definition Unified : CgMode.t := {| CgMode._mode := Some CgMode.UNIFIED |}.
Definition Legacy : CgMode.t := {| CgMode._mode := Some CgMode.LEGACY |}.
Definition Hybrid : CgMode.t := {| CgMode._mode := Some CgMode.HYBRID |}.

(** Detection on world [w], as the specification has it: the matching
    mode, and [DetectionError] when no pattern matches. *)
Definition detects_as_specified (w : world) : Prop :=
  let r := fst (CgMode.__init__ w) in
  (unified_pattern (mounts w) -> r = Return Unified)
  /\ (legacy_pattern (mounts w) -> r = Return Legacy)
  /\ (hybrid_pattern (mounts w) -> r = Return Hybrid)
  /\ (~ unified_pattern (mounts w) -> ~ legacy_pattern (mounts w) ->
      ~ hybrid_pattern (mounts w) -> r = Raise DetectionError).

(** Construction in a world where detection finds Hybrid, as the
    specification has it. *)
Definition hybrid_rejected_whatever_the_names (name slice : string) (w : world) : Prop :=
  fst (CgMode.__init__ w) = Return Hybrid ->
  fst (__init__ name slice w) = Raise UnsupportedModeError.

Definition in_legacy (o : t) : Prop := CgMode._mode (_cgmode o) = Some CgMode.LEGACY.
Definition in_unified (o : t) : Prop := CgMode._mode (_cgmode o) = Some CgMode.UNIFIED.

Definition is_legacy (o : t) : bool :=
  match CgMode._mode (_cgmode o) with
  | Some m => m =? CgMode.LEGACY
  | None => false
  end.

(** [<base>/<name>] *)
Definition primary_dir (o : t) (name : string) : string :=
  _cgpath o +:+ "/" +:+ name.

(** [<cgroup-root>/<controller>/<slice>/<scope>/<name>] *)
Definition controller_dir (o : t) (c name : string) : string :=
  "/sys/fs/cgroup/" +:+ c +:+ "/" +:+ _slice o +:+ "/" +:+ _scope o +:+ "/" +:+ name.

Definition legacy_dirs (o : t) (name : string) : list string :=
  [primary_dir o name; controller_dir o "cpu" name; controller_dir o "memory" name;
   controller_dir o "blkio" name; controller_dir o "pids" name].

(** The directories of sub-group [name] in the mode of [o]. *)
Definition subgroup_dirs (o : t) (name : string) : list string :=
  if is_legacy o then legacy_dirs o name else [primary_dir o name].

(** The process-list files of sub-group [name] in the mode of [o]. *)
Definition procs_files (o : t) (name : string) : list string :=
  map (fun d => d +:+ "/cgroup.procs") (subgroup_dirs o name).

Definition subtree_control (o : t) : string := _cgpath o +:+ "/cgroup.subtree_control".

Definition dir_call (c : call) : Prop :=
  match c with Rmdir _ | Mkdir _ => True | _ => False end.

Definition file_call (c : call) : Prop :=
  match c with OpenW _ | FWrite _ _ => True | _ => False end.

(** Removing or making one of the directories [ds]. *)
Definition dir_call_on (ds : list string) (c : call) : Prop :=
  exists d, d ∈ ds /\ (c = Rmdir d \/ c = Mkdir d).

(** Opening one of the files [fs] for writing, or writing [data] to it. *)
Definition write_call_on (fs : list string) (data : string) (c : call) : Prop :=
  exists f, f ∈ fs /\ (c = OpenW f \/ c = FWrite f data).

(** What [w'] has in its history beyond [w]: only calls in [P]. *)
Definition calls_only (P : call -> Prop) (w w' : world) : Prop :=
  exists evs, log w' = log w ++ evs /\ Forall (fun ev : event => P (fst ev)) evs.

(** What no method changes: the mount table, the pid, the units, and how
    the environment fails. *)
Definition same_host (w w' : world) : Prop :=
  mounts w' = mounts w /\ pid w' = pid w /\ units w' = units w /\ fault w' = fault w.

(** From [w] to [w'] by removing and making directories among [ds] only. *)
Definition dir_steps (ds : list string) (w w' : world) : Prop :=
  same_host w w' /\ files w' = files w /\ calls_only (dir_call_on ds) w w'.

(** From [w] to [w'] by writing [data] to files among [fs] only. *)
Definition write_steps (fs : list string) (data : string) (w w' : world) : Prop :=
  same_host w w' /\ dirs w' = dirs w
  /\ calls_only (write_call_on fs data) w w'
  /\ (forall q, q ∉ fs -> files w' !! q = files w !! q).

(** The attributes that are assigned once. *)
Definition same_scope (o o' : t) : Prop :=
  _cgmode o' = _cgmode o /\ _slice o' = _slice o
  /\ _scope o' = _scope o /\ _cgpath o' = _cgpath o.

(** A method that assigns no attribute of the object. *)
Definition keeps_self {A} (m : M machine A) : Prop :=
  forall st, self (snd (m st)) = self st.

(** [try: os.rmdir(p)  except FileNotFoundError: pass], then [os.mkdir(p)]:
    how both create_subcgroup and its loop make a directory. *)
Abbreviation remake p :=
  (bind (try_except (os (Sys.rmdir p))
           (fun e => if is_FileNotFoundError e then Some (ret tt) else None))
        (fun _ => os (Sys.mkdir p))).

(** [data] written to each of [fs], in turn. *)
Definition written (fs : list string) (data : string) (f : gmap string string)
  : gmap string string :=
  foldl (fun f p => <[p := data]> f) f fs.

(** One successful [with open(p, 'w') as f: f.write(data)] per file. *)
Definition write_events (fs : list string) (data : string) : list event :=
  flat_map (fun p => [(OpenW p, None); (FWrite p data, None)]) fs.

(** A world where the environment never fails a call. *)
Definition calm (w : world) : Prop := forall h c, fault w h c = None.

(** Hosts to try things on. *)
Definition row (mp ty o : string) : sdiskpart :=
  {| device := ty; mountpoint := mp; fstype := ty; opts := o |}.

Definition host (table : list sdiskpart) : world :=
  {| mounts := table; pid := 4242; dirs := ∅; files := ∅; units := ∅;
     log := []; fault := fun _ _ => None |}.

Definition unified_table : list sdiskpart :=
  [row "/sys/fs/cgroup" "cgroup2" "rw,nosuid,nodev,noexec,relatime"].

Definition legacy_table : list sdiskpart :=
  [row "/sys/fs/cgroup" "tmpfs" "ro,nosuid,nodev,noexec,mode=755";
   row "/sys/fs/cgroup/systemd" "cgroup" "rw,nosuid,xattr,name=systemd";
   row "/sys/fs/cgroup/cpu" "cgroup" "rw,nosuid,cpu"].

Definition hybrid_table : list sdiskpart :=
  [row "/sys/fs/cgroup" "tmpfs" "ro,nosuid,nodev,noexec,mode=755";
   row "/sys/fs/cgroup/unified" "cgroup2" "rw,nosuid";
   row "/sys/fs/cgroup/systemd" "cgroup2" "rw,nosuid,xattr,name=systemd"].

Definition scope_on (mode : CgMode.t) (cgpath : string) (known : gset string) : t :=
  {| _cgmode := mode; _slice := "workload.slice"; _scope := "workload.scope";
     _cgpath := cgpath; _subcgroups := known |}.

Definition unified_scope (known : gset string) : machine :=
  {| self := scope_on Unified "/sys/fs/cgroup/workload.slice/workload.scope" known;
     sys := host unified_table |}.

Definition legacy_scope (known : gset string) : machine :=
  {| self := scope_on Legacy "/sys/fs/cgroup/systemd/workload.slice/workload.scope" known;
     sys := host legacy_table |}.

End Spec.

(** ** More vocabulary: well-formed scopes, frames, failures *)

Module Shape.

Import DelegatedScope Spec.

(** A scope as [__init__] leaves it: Legacy or Unified, its base path put
    together from the cgroup root, the slice and the scope. *)
Definition active (o : t) : Prop :=
  (in_legacy o /\ _cgpath o = "/sys/fs/cgroup/systemd/" +:+ _slice o +:+ "/" +:+ _scope o)
  \/ (in_unified o /\ _cgpath o = "/sys/fs/cgroup/" +:+ _slice o +:+ "/" +:+ _scope o).

(** The properties [_start_unit] asks for. *)
Definition unit_properties (pid : Z) (slice : string) : list (string * variant) :=
  [("PIDs", VUInt32s [pid]); ("Slice", VString slice); ("Delegate", VBool true);
   ("CPUAccounting", VBool true); ("MemoryAccounting", VBool true);
   ("BlockIOAccounting", VBool true); ("TasksAccounting", VBool true)].

(** The directories other than [ds] are in [w'] as they were in [w]. *)
Definition dirs_outside (ds : list string) (w w' : world) : Prop :=
  forall q, q ∉ ds -> q ∈ dirs w' <-> q ∈ dirs w.

(** All that [m] does to the directories, it does to those in [ds]. *)
Definition touches_only (ds : list string) {A} (m : M machine A) : Prop :=
  forall st, dirs_outside ds (sys st) (sys (snd (m st))).

(** When [m] raises, the exception is what the last call it made ended
    with: nothing is called after a failure. *)
Definition stops_at_failure {A} (m : M machine A) : Prop :=
  forall st e st', m st = (Raise e, st') ->
                   exists c, last (log (sys st')) = Some (c, Some e).

(** The directories and files are in [w'] as in [w]. *)
Definition same_files_and_dirs (w w' : world) : Prop :=
  dirs w' = dirs w /\ files w' = files w.

(** What [CgMode.__eq__] can be handed: an int, another [CgMode], or
    anything else. *)
Inductive pyobj : Type :=
| PyInt (n : Z)
| PyCgMode (o : CgMode.t)
| PyOther.

(** [CgMode.__eq__] with its three branches; on an int it is
    [CgMode.__eq__] above. *)
Definition cgmode_eq (self : CgMode.t) (other : pyobj) : result bool :=
  match other with
  | PyInt n => CgMode.__eq__ self n
  | PyCgMode o =>
      match CgMode.get_mode self with
      | Raise e => Raise e
      | Return a =>
          match CgMode.get_mode o with
          | Raise e => Raise e
          | Return b => Return (a =? b)
          end
      end
  | PyOther => Return false
  end.

(** A host where systemd has the unit already. *)
Definition host_with_unit (table : list sdiskpart) (unit : string) : world :=
  {| mounts := table; pid := 4242; dirs := ∅; files := ∅; units := {[unit]};
     log := []; fault := fun _ _ => None |}.

(** A host where every call to the system bus is refused. *)
Definition host_without_bus (table : list sdiskpart) : world :=
  {| mounts := table; pid := 4242; dirs := ∅; files := ∅; units := ∅; log := [];
     fault := fun _ c => match c with
                         | GetObject _ _ => Some (DBusException "org.freedesktop.DBus.Error.NoServer")
                         | _ => None
                         end |}.

(** A host where the kernel refuses to remove any cgroup (it is busy). *)
Definition host_busy (table : list sdiskpart) (present : gset string) : world :=
  {| mounts := table; pid := 4242; dirs := present; files := ∅; units := ∅; log := [];
     fault := fun _ c => match c with
                         | Rmdir _ => Some (OSError 16)
                         | _ => None
                         end |}.

End Shape.

(** * Properties *)

(** ** Strings and the mount table *)

Section Strings.

Lemma substring_all (s : string) : String.substring 0 (String.length s) s = s.
Proof. induction s as [|c s IH]; simpl; [done | by rewrite IH]. Qed.

Lemma substring_skip (pre s : string) (m : nat) :
  String.substring (String.length pre) m (pre +:+ s) = String.substring 0 m s.
Proof. induction pre as [|c pre IH]; [done | exact IH]. Qed.

Lemma length_append (a b : string) :
  String.length (a +:+ b) = (String.length a + String.length b)%nat.
Proof.
  induction a as [|c a IH]; [done |].
  change (S (String.length (a +:+ b)) = S (String.length a + String.length b)).
  by rewrite IH.
Qed.

Lemma substring_split (s : string) (k : nat) :
  (k <= String.length s)%nat ->
  s = String.substring 0 k s +:+ String.substring k (String.length s - k) s.
Proof.
  revert k. induction s as [|c s IH]; intros [|k] Hk; simpl in *; try lia.
  - done.
  - by rewrite substring_all.
  - change (String c s = String c (String.substring 0 k s
                               +:+ String.substring k (String.length s - k) s)).
    f_equal. apply IH. lia.
Qed.

Lemma endswith_spec (s suffix : string) :
  Py.endswith s suffix = true <-> Spec.ends_with s suffix.
Proof.
  unfold Py.endswith, Spec.ends_with. rewrite andb_true_iff, Nat.leb_le, String.eqb_eq.
  split.
  - intros [Hle Hsub].
    exists (String.substring 0 (String.length s - String.length suffix) s).
    pose proof (substring_split s (String.length s - String.length suffix)) as Hs.
    replace (String.length s - (String.length s - String.length suffix))%nat
      with (String.length suffix) in Hs by lia.
    rewrite Hsub in Hs. apply Hs. lia.
  - intros [pre ->]. rewrite length_append. split; [lia |].
    replace (String.length pre + String.length suffix - String.length suffix)%nat
      with (String.length pre) by lia.
    rewrite substring_skip. apply substring_all.
Qed.

Lemma find_spec (s sub : string) :
  sub <> "" -> (Py.find s sub =? -1) = false <-> Spec.occurs_in sub s.
Proof.
  intros Hne. unfold Py.find, Spec.occurs_in.
  destruct (String.index 0 sub s) as [i|] eqn:Hi.
  - split; [intros _ | intros _; apply Z.eqb_neq; lia].
    exists i. by apply index_correct1 with (n := 0%nat).
  - split; [done |]. intros [i Hsub]. exfalso.
    eapply index_correct3; [exact Hi | exact Hne | | exact Hsub]. lia.
Qed.

End Strings.

Section Mounts.
Lemma cgroup_mounts_lookup (parts : list sdiskpart) (mp : string) :
  Py.startswith mp "/sys/fs/cgroup" = true ->
  CgMode.cgroup_mounts parts !! mp = Spec.mount_at parts mp.
Proof.
  intros Hmp. unfold CgMode.cgroup_mounts, Spec.mount_at.
  induction parts as [|p parts IH] using rev_ind; [done |].
  rewrite foldl_snoc, filter_app, last_app. rewrite filter_cons, filter_nil.
  destruct (decide (mountpoint p = mp)) as [<- | Hne]; simpl.
  - rewrite Hmp. apply lookup_insert_eq.
  - rewrite <- IH. destruct (Py.startswith (mountpoint p) _); [| done].
    by apply lookup_insert_ne.
Qed.
End Mounts.

(** ** Detection and construction *)

Section Detection.

Lemma named_hierarchy_is_spec (parts : list sdiskpart) (ty : string) :
  CgMode.named_hierarchy_is (Spec.mount_at parts "/sys/fs/cgroup/systemd") ty = true
  <-> Spec.named_systemd parts ty.
Proof.
  unfold CgMode.named_hierarchy_is, Spec.named_systemd.
  destruct (Spec.mount_at parts "/sys/fs/cgroup/systemd") as [m|].
  - rewrite andb_true_iff, String.eqb_eq, negb_true_iff, find_spec by done.
    split; [intros [? ?]; by exists m | intros (? & [= <-] & ? & ?); done].
  - split; [done | intros (? & ? & _); done].
Qed.

(** What [CgMode()] does once the mount table has been read. *)
Lemma detection_run (w : world) :
  fault w (log w) DiskPartitions = None ->
  CgMode.__init__ w =
    (match Spec.root_mount (mounts w) with
     | None => Return {| CgMode._mode := None |}
     | Some root =>
         if String.eqb (fstype root) "cgroup2" then Return Spec.Unified
         else if String.eqb (fstype root) "tmpfs"
                 && CgMode.named_hierarchy_is
                      (Spec.mount_at (mounts w) "/sys/fs/cgroup/systemd") "cgroup"
         then Return Spec.Legacy
         else if String.eqb (fstype root) "tmpfs"
                 && CgMode.named_hierarchy_is
                      (Spec.mount_at (mounts w) "/sys/fs/cgroup/systemd") "cgroup2"
         then Return Spec.Hybrid
         else Raise Spec.DetectionError
     end,
     record DiskPartitions None w).
Proof.
  intros Hcalm.
  unfold CgMode.__init__, bind, Sys.disk_partitions, syscall. rewrite Hcalm. simpl.
  rewrite !cgroup_mounts_lookup by reflexivity. unfold Spec.root_mount.
  destruct (Spec.mount_at (mounts w) "/sys/fs/cgroup") as [root|]; [| done].
  repeat (match goal with |- context [if ?b then _ else _] => destruct b end); done.
Qed.

End Detection.

Section DetectionClaims.

Lemma patterns_exclusive_fstype (parts : list sdiskpart) (a b : string) :
  Spec.root_of_type parts a -> Spec.root_of_type parts b -> a = b.
Proof. intros (r & H1 & <-) (r' & H2 & <-). congruence. Qed.

(** C2, as amended: detection returns the mode whose pattern the mount table
    matches; a table that has a root cgroup mount and matches no pattern
    makes it raise DetectionError; with no root cgroup mount in the table
    detection raises nothing and returns. *)
Theorem detection_outcomes (w : world) :
  fault w (log w) DiskPartitions = None ->
  let r := fst (CgMode.__init__ w) in
  (Spec.unified_pattern (mounts w) -> r = Return Spec.Unified)
  /\ (Spec.legacy_pattern (mounts w) -> r = Return Spec.Legacy)
  /\ (Spec.hybrid_pattern (mounts w) -> r = Return Spec.Hybrid)
  /\ (is_Some (Spec.root_mount (mounts w)) ->
      ~ Spec.unified_pattern (mounts w) -> ~ Spec.legacy_pattern (mounts w) ->
      ~ Spec.hybrid_pattern (mounts w) -> r = Raise Spec.DetectionError)
  /\ (Spec.root_mount (mounts w) = None -> exists m, r = Return m).
Proof.
  intros Hcalm r. subst r. rewrite (detection_run w Hcalm). simpl.
  unfold Spec.unified_pattern, Spec.legacy_pattern, Spec.hybrid_pattern, Spec.root_of_type.
  destruct (Spec.root_mount (mounts w)) as [root|] eqn:Hroot.
  2: { repeat split; try (intros (? & ? & _); done); try (intros [(? & ? & _) _]; done).
       - intros [? ?]; done.
       - eauto. }
  destruct (String.eqb (fstype root) "cgroup2") eqn:Hu.
  { apply String.eqb_eq in Hu. repeat split; try done.
    - intros [(? & [= <-] & ?) _]. congruence.
    - intros [(? & [= <-] & ?) _]. congruence.
    - intros _ Hn. destruct Hn. eauto. }
  apply String.eqb_neq in Hu.
  destruct (String.eqb (fstype root) "tmpfs") eqn:Ht; simpl.
  2: { apply String.eqb_neq in Ht. repeat split; try done.
       - intros (? & [= <-] & ?). done.
       - intros [(? & [= <-] & ?) _]. done.
       - intros [(? & [= <-] & ?) _]. done. }
  apply String.eqb_eq in Ht.
  destruct (CgMode.named_hierarchy_is _ "cgroup") eqn:Hl.
  { apply named_hierarchy_is_spec in Hl. repeat split; try done.
    - intros (? & [= <-] & ?). done.
    - intros [_ (m & Hm & Hty & _)]. destruct Hl as (m' & Hm' & Hty' & _). congruence.
    - intros _ _ Hn. destruct Hn. eauto. }
  destruct (CgMode.named_hierarchy_is _ "cgroup2") eqn:Hh.
  { apply named_hierarchy_is_spec in Hh. repeat split; try done.
    - intros (? & [= <-] & ?). done.
    - intros [_ Hn]. apply named_hierarchy_is_spec in Hn. congruence.
    - intros _ _ _ Hn. destruct Hn. eauto. }
  repeat split; try done.
  - intros (? & [= <-] & ?). done.
  - intros [_ Hn]. apply named_hierarchy_is_spec in Hn. congruence.
  - intros [_ Hn]. apply named_hierarchy_is_spec in Hn. congruence.
Qed.

Lemma detection_outcomes_witness :
  fst (CgMode.__init__ (Spec.host Spec.legacy_table)) = Return Spec.Legacy.
Proof.
  apply (detection_outcomes (Spec.host Spec.legacy_table)); [reflexivity |].
  split.
  - exists (Spec.row "/sys/fs/cgroup" "tmpfs" "ro,nosuid,nodev,noexec,mode=755").
    split; reflexivity.
  - exists (Spec.row "/sys/fs/cgroup/systemd" "cgroup" "rw,nosuid,xattr,name=systemd").
    split; [reflexivity | split; [reflexivity | by exists 16%nat]].
Defined.

(** C2 as stated fails on a host with no cgroup mount at all: no pattern
    matches, and detection returns instead of raising. *)
Lemma detection_without_root_mount :
  ~ Spec.detects_as_specified (Spec.host []).
Proof.
  intros (_ & _ & _ & H).
  assert (Hnone : forall ty, ~ Spec.root_of_type [] ty) by (intros ty (? & ? & _); done).
  discriminate H.
  - apply Hnone.
  - intros [? _]. by eapply Hnone.
  - intros [? _]. by eapply Hnone.
Qed.

End DetectionClaims.

Section Construction.

Import DelegatedScope.

(** C8: a slice name without the slice suffix, or a scope name without the
    scope suffix, makes construction raise NameError with the world as it
    was: nothing has been read, no call to systemd made, no directory or
    file touched. *)
Theorem invalid_names_raise_first (name slice : string) (w : world) :
  ~ Spec.ends_with slice ".slice" \/ ~ Spec.ends_with name ".scope" ->
  exists e, Spec.NameError e /\ __init__ name slice w = (Raise e, w).
Proof.
  intros Hbad. unfold __init__.
  destruct (Py.endswith slice ".slice") eqn:Hslice; simpl.
  - destruct (Py.endswith name ".scope") eqn:Hname; simpl.
    + apply endswith_spec in Hslice, Hname. tauto.
    + exists (ValueError "Invalid scope name."). split; [by right | done].
  - exists (ValueError "Invalid slice name."). split; [by left | done].
Qed.

Lemma invalid_names_raise_first_witness :
  exists e, Spec.NameError e
            /\ __init__ "workload" "workload.slice" (Spec.host Spec.unified_table)
               = (Raise e, Spec.host Spec.unified_table).
Proof.
  apply invalid_names_raise_first. right.
  intros Hends. apply endswith_spec in Hends. vm_compute in Hends. discriminate.
Defined.

(** C3, as amended: with a slice name that has the slice suffix and a scope
    name that has the scope suffix, construction on a host where detection
    finds Hybrid raises UnsupportedModeError, and has by then done no more
    than detection does. *)
Theorem hybrid_rejected_for_valid_names (name slice : string) (w : world) :
  Spec.ends_with slice ".slice" -> Spec.ends_with name ".scope" ->
  fst (CgMode.__init__ w) = Return Spec.Hybrid ->
  __init__ name slice w = (Raise Spec.UnsupportedModeError, snd (CgMode.__init__ w)).
Proof.
  intros Hslice Hname Hdet. apply endswith_spec in Hslice, Hname.
  unfold __init__. rewrite Hslice, Hname. simpl.
  unfold bind. destruct (CgMode.__init__ w) as [r w1]. simpl in *. subst r.
  reflexivity.
Qed.

Lemma hybrid_rejected_for_valid_names_witness :
  __init__ "workload.scope" "workload.slice" (Spec.host Spec.hybrid_table)
  = (Raise Spec.UnsupportedModeError,
     record DiskPartitions None (Spec.host Spec.hybrid_table)).
Proof.
  apply (hybrid_rejected_for_valid_names "workload.scope" "workload.slice"
           (Spec.host Spec.hybrid_table)).
  - by exists "workload".
  - by exists "workload".
  - reflexivity.
Defined.

(** C3 as stated fails for an invalid slice name: the name check comes
    first, and its error is the one raised. *)
Lemma hybrid_with_invalid_slice :
  ~ Spec.hybrid_rejected_whatever_the_names "workload.scope" "workload"
      (Spec.host Spec.hybrid_table).
Proof.
  intros H. specialize (H eq_refl). vm_compute in H. discriminate H.
Qed.

End Construction.

(** ** Steps of the world *)

Section Steps.

Import Spec.

Lemma calls_only_refl (P : call -> Prop) (w : world) : calls_only P w w.
Proof. exists []. by rewrite app_nil_r. Qed.

Lemma calls_only_trans (P : call -> Prop) (w1 w2 w3 : world) :
  calls_only P w1 w2 -> calls_only P w2 w3 -> calls_only P w1 w3.
Proof.
  intros (e1 & H1 & F1) (e2 & H2 & F2). exists (e1 ++ e2). split.
  - by rewrite H2, H1, app_assoc.
  - by apply Forall_app.
Qed.

Lemma calls_only_mono (P Q : call -> Prop) (w w' : world) :
  (forall c, P c -> Q c) -> calls_only P w w' -> calls_only Q w w'.
Proof.
  intros HPQ (evs & H & F). exists evs. split; [done |].
  eapply Forall_impl; [exact F | intros ev; apply HPQ].
Qed.

Lemma calls_only_record (P : call -> Prop) (c : call) (o : option exn) (w w' : world) :
  P c -> log w' = log w -> calls_only P w (record c o w').
Proof. intros HP Hlog. exists [(c, o)]. simpl. rewrite Hlog. split; [done | by constructor]. Qed.

Lemma same_host_refl (w : world) : same_host w w.
Proof. by repeat split. Qed.

Lemma same_host_trans (w1 w2 w3 : world) :
  same_host w1 w2 -> same_host w2 w3 -> same_host w1 w3.
Proof. unfold same_host. intros (?&?&?&?) (?&?&?&?). repeat split; congruence. Qed.

Lemma calm_same_host (w w' : world) : same_host w w' -> calm w -> calm w'.
Proof. intros (_ & _ & _ & Hf) Hcalm h c. rewrite Hf. apply Hcalm. Qed.

Lemma dir_steps_refl (ds : list string) (w : world) : dir_steps ds w w.
Proof. split; [apply same_host_refl | split; [done | apply calls_only_refl]]. Qed.

Lemma dir_steps_trans (ds : list string) (w1 w2 w3 : world) :
  dir_steps ds w1 w2 -> dir_steps ds w2 w3 -> dir_steps ds w1 w3.
Proof.
  intros (H1 & F1 & C1) (H2 & F2 & C2). split; [by eapply same_host_trans |].
  split; [congruence | by eapply calls_only_trans].
Qed.

Lemma dir_steps_mono (ds ds' : list string) (w w' : world) :
  ds ⊆ ds' -> dir_steps ds w w' -> dir_steps ds' w w'.
Proof.
  intros Hsub (H & F & C). split; [done | split; [done |]].
  eapply calls_only_mono; [| exact C]. intros c (d & Hd & Hc). exists d. split; [auto | done].
Qed.

Lemma write_steps_refl (fs : list string) (data : string) (w : world) :
  write_steps fs data w w.
Proof. split; [apply same_host_refl | split; [done | split; [apply calls_only_refl | done]]]. Qed.

Lemma write_steps_trans (fs : list string) (data : string) (w1 w2 w3 : world) :
  write_steps fs data w1 w2 -> write_steps fs data w2 w3 -> write_steps fs data w1 w3.
Proof.
  intros (H1 & D1 & C1 & F1) (H2 & D2 & C2 & F2). split; [by eapply same_host_trans |].
  split; [congruence |]. split; [by eapply calls_only_trans |].
  intros q Hq. by rewrite F2, F1.
Qed.

Lemma write_steps_mono (fs fs' : list string) (data : string) (w w' : world) :
  fs ⊆ fs' -> write_steps fs data w w' -> write_steps fs' data w w'.
Proof.
  intros Hsub (H & D & C & F). split; [done | split; [done |]]. split.
  - eapply calls_only_mono; [| exact C]. intros c (f & Hf & Hc). exists f. split; [auto | done].
  - intros q Hq. apply F. intros Hin. apply Hq. auto.
Qed.

End Steps.

(** ** The two building blocks of the methods *)

Section Blocks.

Import Spec DelegatedScope.

Ltac run_calls :=
  unfold os, Sys.with_open_w_write, Sys.rmdir, Sys.mkdir, Sys.open_w, Sys.write;
  unfold bind, try_except, syscall, ret; simpl;
  repeat (match goal with
          | |- context [match fault ?w ?h ?c with _ => _ end] =>
              let F := fresh "Hfault" in destruct (fault w h c) eqn:F; simpl
          | |- context [bool_decide ?P] => destruct (bool_decide_reflect P); simpl
          | |- context [is_FileNotFoundError ?e] => destruct e; simpl
          end).

Ltac history :=
  match goal with
  | |- calls_only _ _ _ =>
      eexists; split;
      [ simpl; rewrite <- ?app_assoc; simpl; reflexivity
      | repeat constructor; simpl; eexists; (split; [eassumption | auto]) ]
  end.

Lemma remake_dirs (p : string) (D : gset string) : {[p]} ∪ D ∖ {[p]} = {[p]} ∪ D.
Proof.
  apply set_eq. intros x. rewrite !elem_of_union, elem_of_difference, elem_of_singleton.
  destruct (decide (x = p)); tauto.
Qed.

Lemma union_singleton_swap (p : string) (A D : gset string) :
  A ∪ ({[p]} ∪ D) = ({[p]} ∪ A) ∪ D.
Proof. by rewrite (assoc_L (∪)), (comm_L (∪) A {[p]}). Qed.

Lemma remake_spec (p : string) (ds : list string) (st : machine) :
  p ∈ ds ->
  let r := fst (remake p st) in
  let st' := snd (remake p st) in
  self st' = self st
  /\ dir_steps ds (sys st) (sys st')
  /\ (r = Return tt -> dirs (sys st') = {[p]} ∪ dirs (sys st))
  /\ (calm (sys st) -> r = Return tt).
Proof.
  intros Hp. simpl.
  assert (Hcalm : forall c, calm (sys st) -> fault (sys st) (log (sys st)) c = None)
    by (intros c H; apply H).
  split; [by run_calls |]. split; [| split].
  - unfold dir_steps, same_host. run_calls; (split; [done | split; [done | history]]).
  - run_calls; try done; intros _; apply remake_dirs.
  - intros Hc. pose proof (Hcalm (Rmdir p) Hc) as H1.
    unfold bind, try_except, os, Sys.rmdir, Sys.mkdir, syscall, ret. simpl. rewrite H1.
    destruct (bool_decide_reflect (p ∈ dirs (sys st))); simpl.
    + rewrite (Hc _ (Mkdir p)).
      destruct (bool_decide_reflect (p ∈ dirs (sys st) ∖ {[p]})) as [Hin|]; [| done].
      apply elem_of_difference in Hin as [_ Hin]. by destruct Hin; apply elem_of_singleton.
    + rewrite (Hc _ (Mkdir p)).
      destruct (bool_decide_reflect (p ∈ dirs (sys st))); [done | done].
Qed.

Lemma write_spec (p data : string) (fs : list string) (st : machine) :
  p ∈ fs ->
  let r := fst (os (Sys.with_open_w_write p data) st) in
  let st' := snd (os (Sys.with_open_w_write p data) st) in
  self st' = self st
  /\ write_steps fs data (sys st) (sys st')
  /\ (r = Return tt ->
      files (sys st') = <[p := data]> (files (sys st))
      /\ log (sys st') = log (sys st) ++ [(OpenW p, None); (FWrite p data, None)])
  /\ (calm (sys st) -> r = Return tt).
Proof.
  intros Hp. simpl. split; [by run_calls |]. split; [| split].
  - unfold write_steps, same_host.
    run_calls; (split; [done | split; [done | split; [history |]]]);
      intros q Hq; simpl; try done;
      assert (p <> q) by (intros ->; done); by rewrite ?lookup_insert_ne.
  - run_calls; try done. intros _. split.
    + by rewrite insert_insert_eq.
    + by rewrite <- app_assoc.
  - intros Hc. unfold os, Sys.with_open_w_write, Sys.open_w, Sys.write.
    unfold bind, syscall. simpl.
    rewrite (Hc _ (OpenW p)). simpl. by rewrite (Hc _ (FWrite p data)).
Qed.

End Blocks.

(** ** Loops over the controllers *)

Section Loops.

Import Spec DelegatedScope.

Lemma bind_run {S A B} (m : M S A) (k : A -> M S B) (s : S) :
  bind m k s = match m s with
               | (Return a, s') => k a s'
               | (Raise e, s') => (Raise e, s')
               end.
Proof. reflexivity. Qed.

Lemma bind_assoc {S A B C} (m : M S A) (k : A -> M S B) (k' : B -> M S C) (s : S) :
  bind (bind m k) k' s = bind m (fun a => bind (k a) k') s.
Proof. unfold bind. by destruct (m s) as [[a|e] s']. Qed.

Lemma remake_loop_spec (f : string -> string) (ds cs acc : list string) (st : machine) :
  (forall c, c ∈ cs -> f c ∈ ds) ->
  forall r st',
    for_in cs acc
      (fun c result =>
         try_except (os (Sys.rmdir (f c)))
           (fun e => if is_FileNotFoundError e then Some (ret tt) else None) ;;
         os (Sys.mkdir (f c)) ;;
         ret (result ++ [f c])) st = (r, st') ->
    self st' = self st
    /\ dir_steps ds (sys st) (sys st')
    /\ (forall v, r = Return v ->
         v = acc ++ map f cs
         /\ dirs (sys st') = list_to_set (map f cs) ∪ dirs (sys st))
    /\ (calm (sys st) -> exists v, r = Return v).
Proof.
  revert acc st. induction cs as [|c cs IH]; intros acc st Hin r st' Hrun.
  - injection Hrun as <- <-. split; [done |]. split; [apply dir_steps_refl |].
    split; [| eauto]. intros v [= <-]. rewrite app_nil_r. split; [done |].
    simpl. by rewrite (left_id_L ∅ (∪)).
  - simpl in Hrun. rewrite bind_run, <- bind_assoc, bind_run in Hrun.
    assert (Hc : f c ∈ ds) by (apply Hin; left).
    destruct (remake_spec (f c) ds st Hc) as (Hself & Hsteps & Hdirs & Hcalm).
    destruct (bind _ _ st) as [[[]|e] st1]; simpl in *.
    + apply IH in Hrun as (Hself' & Hsteps' & Hret & Hcalm');
        [| intros c' Hc'; apply Hin; by right].
      split; [congruence |]. split; [by eapply dir_steps_trans |]. split.
      * intros v Hv. destruct (Hret v Hv) as [-> Hd]. split.
        { by rewrite <- app_assoc. }
        { rewrite Hd, Hdirs by done. apply union_singleton_swap. }
      * intros Hc0. apply Hcalm'. eapply calm_same_host; [apply Hsteps | done].
    + injection Hrun as <- <-. split; [done |]. split; [done |].
      split; [done |]. intros Hc0. by specialize (Hcalm Hc0).
Qed.

Lemma written_snoc (fs : list string) (p data : string) (f : gmap string string) :
  written (fs ++ [p]) data f = <[p := data]> (written fs data f).
Proof. unfold written. by rewrite foldl_snoc. Qed.

Lemma written_cons (fs : list string) (p data : string) (f : gmap string string) :
  written (p :: fs) data f = written fs data (<[p := data]> f).
Proof. reflexivity. Qed.

Lemma written_lookup (fs : list string) (data : string) (f : gmap string string) (p : string) :
  p ∈ fs -> written fs data f !! p = Some data.
Proof.
  induction fs as [|q fs IH] using rev_ind; [by intros ?%elem_of_nil |].
  rewrite written_snoc, elem_of_app, list_elem_of_singleton.
  destruct (decide (q = p)) as [-> | Hne].
  - intros _. apply lookup_insert_eq.
  - intros [Hp | ->]; [| done]. rewrite lookup_insert_ne by done. by apply IH.
Qed.

Lemma write_loop_spec (f : string -> string) (fs cs : list string) (data : string)
    (st : machine) :
  (forall c, c ∈ cs -> f c ∈ fs) ->
  forall r st',
    for_in cs tt (fun c _ => os (Sys.with_open_w_write (f c) data)) st = (r, st') ->
    self st' = self st
    /\ write_steps fs data (sys st) (sys st')
    /\ (r = Return tt ->
         files (sys st') = written (map f cs) data (files (sys st))
         /\ log (sys st') = log (sys st) ++ write_events (map f cs) data)
    /\ (calm (sys st) -> r = Return tt).
Proof.
  revert st. induction cs as [|c cs IH]; intros st Hin r st' Hrun.
  - injection Hrun as <- <-. split; [done |]. split; [apply write_steps_refl |].
    split; [| done]. intros _. by rewrite app_nil_r.
  - simpl in Hrun. rewrite bind_run in Hrun.
    assert (Hc : f c ∈ fs) by (apply Hin; left).
    destruct (write_spec (f c) data fs st Hc) as (Hself & Hsteps & Hret & Hcalm).
    destruct (os _ st) as [[[]|e] st1]; simpl in *.
    + apply IH in Hrun as (Hself' & Hsteps' & Hret' & Hcalm');
        [| intros c' Hc'; apply Hin; by right].
      split; [congruence |]. split; [by eapply write_steps_trans |]. split.
      * intros Hr. destruct (Hret' Hr) as [Hf Hl]. destruct Hret as [Hf1 Hl1]; [done |].
        rewrite Hf, Hl, Hf1, Hl1. split; [done |].
        by rewrite <- app_assoc.
      * intros Hc0. apply Hcalm'. eapply calm_same_host; [apply Hsteps | done].
    + injection Hrun as <- <-. split; [done |]. split; [done |].
      split; [done |]. intros Hc0. by specialize (Hcalm Hc0).
Qed.

End Loops.

(** ** create_subcgroup *)

Section CreateSubcgroup.

Import Spec DelegatedScope.

Lemma controllers_in_legacy_dirs (o : t) (name c : string) :
  c ∈ controllers -> controller_dir o c name ∈ legacy_dirs o name.
Proof.
  unfold controllers, legacy_dirs. intros Hc.
  repeat (apply elem_of_cons in Hc as [-> | Hc];
          [ repeat (first [ by apply list_elem_of_here | apply list_elem_of_further ]) |]).
  by apply elem_of_nil in Hc.
Qed.

Lemma same_scope_eq (o o' : t) : o' = o -> same_scope o o'.
Proof. by intros ->. Qed.

Lemma create_subcgroup_spec (name : string) (st : machine) (r : result (option (list string)))
    (st' : machine) :
  create_subcgroup name st = (r, st') ->
  same_scope (self st) (self st')
  /\ dir_steps (subgroup_dirs (self st) name) (sys st) (sys st')
  /\ (forall v, r = Return v ->
        v = Some (subgroup_dirs (self st) name)
        /\ dirs (sys st') = list_to_set (subgroup_dirs (self st) name) ∪ dirs (sys st)
        /\ _subcgroups (self st') = {[name]} ∪ _subcgroups (self st))
  /\ (forall e, r = Raise e -> self st' = self st)
  /\ (calm (sys st) -> is_Some (CgMode._mode (_cgmode (self st))) -> exists v, r = Return v).
Proof.
  intros Hrun. unfold create_subcgroup in Hrun.
  change (negb bool_of_builtin_str) with false in Hrun. cbv iota in Hrun.
  rewrite bind_run in Hrun. cbv beta iota zeta delta [this eval] in Hrun.
  rewrite <- bind_assoc, bind_run in Hrun.
  set (ds := subgroup_dirs (self st) name).
  assert (Hprimary : primary_dir (self st) name ∈ ds).
  { unfold ds, subgroup_dirs, legacy_dirs. destruct (is_legacy (self st)); apply list_elem_of_here. }
  destruct (remake_spec (primary_dir (self st) name) ds st Hprimary)
    as (Hself & Hsteps & Hdirs & Hcalm).
  unfold primary_dir in Hself, Hsteps, Hdirs, Hcalm.
  destruct (bind _ _ st) as [[[]|e] st1]; simpl in Hself, Hsteps, Hdirs, Hcalm.
  2: { injection Hrun as <- <-. split; [by apply same_scope_eq |].
       split; [done |]. split; [done |]. split; [done |].
       intros Hc _. by specialize (Hcalm Hc). }
  specialize (Hdirs eq_refl). clear Hcalm.
  unfold CgMode.__eq__, CgMode.get_mode in Hrun.
  destruct (CgMode._mode (_cgmode (self st))) as [m|] eqn:Hmode.
  2: { injection Hrun as <- <-. split; [by apply same_scope_eq |].
       split; [done |]. split; [done |]. split; [done |].
       intros _ [? ?]; done. }
  rewrite bind_run in Hrun. cbv beta iota zeta delta [this eval] in Hrun.
  destruct (m =? CgMode.LEGACY) eqn:Hleg.
  - rewrite bind_run in Hrun.
    assert (Hds : ds = legacy_dirs (self st) name).
    { unfold ds, subgroup_dirs, is_legacy. by rewrite Hmode, Hleg. }
    destruct (for_in controllers _ _ st1) as [[v|e] st2] eqn:Hloop.
    + apply (remake_loop_spec (fun c => controller_dir (self st) c name) ds) in Hloop
        as (Hself2 & Hsteps2 & Hret & _);
        [| intros c Hc; rewrite Hds; by apply controllers_in_legacy_dirs].
      destruct (Hret v eq_refl) as [-> Hdirs2].
      injection Hrun as <- <-. simpl. rewrite Hself2, Hself.
      split; [done |]. split; [by eapply dir_steps_trans |]. split; [| split; [done | eauto]].
      intros v [= <-]. split; [by rewrite Hds |]. split; [| done].
      rewrite Hdirs2, Hdirs, Hds. apply union_singleton_swap.
    + apply (remake_loop_spec (fun c => controller_dir (self st) c name) ds) in Hloop
        as (Hself2 & Hsteps2 & _ & Hcalm2);
        [| intros c Hc; rewrite Hds; by apply controllers_in_legacy_dirs].
      injection Hrun as <- <-.
      split; [apply same_scope_eq; congruence |]. split; [by eapply dir_steps_trans |].
      split; [done |]. split; [intros _ _; congruence |].
      intros Hc _. destruct Hcalm2 as [? ?]; [| done].
      eapply calm_same_host; [apply Hsteps | done].
  - assert (Hds : ds = [primary_dir (self st) name]).
    { unfold ds, subgroup_dirs, is_legacy. by rewrite Hmode, Hleg. }
    injection Hrun as <- <-. simpl. rewrite Hself.
    split; [done |]. split; [done |]. split; [| split; [done | eauto]].
    intros v [= <-]. rewrite Hds. split; [done |]. split; [| done].
    rewrite Hdirs. simpl. by rewrite (right_id_L ∅ (∪)).
Qed.

End CreateSubcgroup.

(** ** migrate_pid and delegate_resource_control *)

Section MigratePid.

Import Spec DelegatedScope.

Lemma append_assoc (a b c : string) : (a +:+ b) +:+ c = a +:+ b +:+ c.
Proof.
  induction a as [|x a IH]; [done |].
  change (String x ((a +:+ b) +:+ c) = String x (a +:+ b +:+ c)). by rewrite IH.
Qed.

Lemma primary_procs (o : t) (name : string) :
  _cgpath o +:+ "/" +:+ name +:+ "/cgroup.procs" = primary_dir o name +:+ "/cgroup.procs".
Proof. unfold primary_dir. by rewrite !append_assoc. Qed.

Lemma controller_procs (o : t) (c name : string) :
  "/sys/fs/cgroup/" +:+ c +:+ "/" +:+ _slice o +:+ "/" +:+ _scope o +:+ "/" +:+ name
    +:+ "/cgroup.procs"
  = controller_dir o c name +:+ "/cgroup.procs".
Proof. unfold controller_dir. by rewrite !append_assoc. Qed.

(** Migration into a sub-group that is known already. *)
Lemma migrate_known_spec (subcgroup : string) (pid : Z) (st : machine)
    (r : result unit) (st' : machine) :
  subcgroup ∈ _subcgroups (self st) ->
  migrate_pid subcgroup pid st = (r, st') ->
  let fs := procs_files (self st) subcgroup in
  self st' = self st
  /\ write_steps fs (Py.str pid) (sys st) (sys st')
  /\ (r = Return tt ->
      files (sys st') = written fs (Py.str pid) (files (sys st))
      /\ log (sys st') = log (sys st) ++ write_events fs (Py.str pid))
  /\ (calm (sys st) -> is_Some (CgMode._mode (_cgmode (self st))) -> r = Return tt).
Proof.
  intros Hknown Hrun. cbv zeta.
  remember (procs_files (self st) subcgroup) as fs eqn:Hfsdef.
  unfold migrate_pid in Hrun.
  rewrite bind_run in Hrun. cbv beta iota zeta delta [this] in Hrun.
  rewrite bool_decide_eq_true_2 in Hrun by done.
  cbv beta iota zeta delta [negb] in Hrun.
  rewrite bind_run in Hrun. cbv beta iota zeta delta [ret] in Hrun.
  rewrite bind_run in Hrun. cbv beta iota zeta delta [this] in Hrun.
  rewrite bind_run, primary_procs in Hrun.
  assert (Hprimary : primary_dir (self st) subcgroup +:+ "/cgroup.procs" ∈ fs).
  { rewrite Hfsdef. unfold procs_files, subgroup_dirs, legacy_dirs.
    destruct (is_legacy (self st)); apply list_elem_of_here. }
  destruct (write_spec _ (Py.str pid) fs st Hprimary) as (Hself & Hsteps & Hret & Hcalm).
  destruct (os _ st) as [[[]|e] st1]; cbv beta iota zeta in Hself, Hsteps, Hret, Hcalm;
    simpl fst in *; simpl snd in *.
  2: { injection Hrun as <- <-. split; [done |]. split; [done |]. split; [done |].
       intros Hc _. by specialize (Hcalm Hc). }
  destruct (Hret eq_refl) as [Hfiles Hlog]. clear Hret Hcalm.
  unfold CgMode.__eq__, CgMode.get_mode in Hrun.
  destruct (CgMode._mode (_cgmode (self st))) as [m|] eqn:Hmode.
  2: { injection Hrun as <- <-. split; [done |]. split; [done |]. split; [done |].
       intros _ [? ?]; done. }
  rewrite bind_run in Hrun. cbv beta iota zeta delta [eval] in Hrun.
  destruct (m =? CgMode.LEGACY) eqn:Hleg.
  - set (f := fun c : string =>
                "/sys/fs/cgroup/" +:+ c +:+ "/" +:+ _slice (self st) +:+ "/"
                +:+ _scope (self st) +:+ "/" +:+ subcgroup +:+ "/cgroup.procs") in Hrun.
    assert (Hfs : fs = (primary_dir (self st) subcgroup +:+ "/cgroup.procs")
                       :: map f controllers).
    { rewrite Hfsdef. unfold procs_files, subgroup_dirs, is_legacy. rewrite Hmode, Hleg.
      unfold f, legacy_dirs, controllers. simpl.
      by rewrite !controller_procs. }
    assert (Hin : forall c, c ∈ controllers -> f c ∈ fs).
    { intros c Hc. rewrite Hfs. right. by apply list_elem_of_fmap_2. }
    destruct (write_loop_spec f fs controllers (Py.str pid) st1 Hin r st' Hrun)
      as (Hself2 & Hsteps2 & Hret2 & Hcalm2).
    split; [congruence |]. split; [by eapply write_steps_trans |]. split.
    + intros Hr. destruct (Hret2 Hr) as [Hf2 Hl2]. rewrite Hf2, Hl2, Hfiles, Hlog, Hfs.
      split; [done |]. by rewrite <- app_assoc.
    + intros Hc _. apply Hcalm2. eapply calm_same_host; [apply Hsteps | done].
  - assert (Hfs : fs = [primary_dir (self st) subcgroup +:+ "/cgroup.procs"]).
    { rewrite Hfsdef. unfold procs_files, subgroup_dirs, is_legacy. by rewrite Hmode, Hleg. }
    injection Hrun as <- <-. split; [done |]. split; [done |]. split; [| done].
    intros _. by rewrite Hfs.
Qed.

End MigratePid.

Section MigrateUnknown.

Import Spec DelegatedScope.

Lemma subgroup_dirs_same_scope (o o' : t) (name : string) :
  same_scope o o' -> subgroup_dirs o' name = subgroup_dirs o name.
Proof.
  intros (Hm & Hsl & Hsc & Hp).
  unfold subgroup_dirs, legacy_dirs, is_legacy, primary_dir, controller_dir.
  by rewrite Hm, Hsl, Hsc, Hp.
Qed.

Lemma procs_files_same_scope (o o' : t) (name : string) :
  same_scope o o' -> procs_files o' name = procs_files o name.
Proof. intros H. unfold procs_files. by rewrite (subgroup_dirs_same_scope o o'). Qed.

(** Migration into a sub-group that is not known yet is its creation,
    then, if that returned, migration into the now known sub-group. *)
Lemma migrate_unknown (subcgroup : string) (pid : Z) (st : machine) :
  subcgroup ∉ _subcgroups (self st) ->
  migrate_pid subcgroup pid st =
    match create_subcgroup subcgroup st with
    | (Return _, st1) => migrate_pid subcgroup pid st1
    | (Raise e, st1) => (Raise e, st1)
    end.
Proof.
  intros Hnew.
  destruct (create_subcgroup subcgroup st) as [[v|e] st1] eqn:Hcreate.
  - destruct (create_subcgroup_spec _ _ _ _ Hcreate) as (_ & _ & Hret & _).
    destruct (Hret v eq_refl) as (_ & _ & Hknown).
    unfold migrate_pid. rewrite !(bind_run this).
    cbv beta iota zeta delta [this].
    rewrite bool_decide_eq_false_2 by done.
    rewrite bool_decide_eq_true_2 by (rewrite Hknown; apply elem_of_union_l, elem_of_singleton; done).
    cbv beta iota zeta delta [negb].
    rewrite (bind_run (bind _ _)), (bind_run (create_subcgroup _)), Hcreate.
    by rewrite (bind_run (ret tt)).
  - unfold migrate_pid. rewrite (bind_run this).
    cbv beta iota zeta delta [this].
    rewrite bool_decide_eq_false_2 by done.
    cbv beta iota zeta delta [negb].
    by rewrite (bind_run (bind _ _)), (bind_run (create_subcgroup _)), Hcreate.
Qed.

Lemma delegate_resource_control_legacy (st : machine) :
  in_legacy (self st) -> delegate_resource_control st = (Return tt, st).
Proof.
  unfold in_legacy. intros Hmode.
  unfold delegate_resource_control, bind, this, eval, CgMode.__ne__, CgMode.__eq__,
    CgMode.get_mode.
  by rewrite Hmode.
Qed.

Lemma delegate_resource_control_unified (st : machine) :
  in_unified (self st) ->
  delegate_resource_control st
  = os (Sys.with_open_w_write (subtree_control (self st)) "+cpu +memory +pids +io") st.
Proof.
  unfold in_unified. intros Hmode.
  unfold delegate_resource_control, bind, this, eval, CgMode.__ne__, CgMode.__eq__,
    CgMode.get_mode.
  by rewrite Hmode.
Qed.

End MigrateUnknown.

(** ** Methods that leave the object alone *)

Create HintDb keeps discriminated.

Section KeepsSelf.

Import Spec DelegatedScope.

Lemma keeps_ret {A} (a : A) : keeps_self (ret a).
Proof. by intros st. Qed.

Lemma keeps_raise {A} (e : exn) : keeps_self (@raise machine A e).
Proof. by intros st. Qed.

Lemma keeps_eval {A} (r : result A) : keeps_self (eval r).
Proof. by intros st. Qed.

Lemma keeps_this : keeps_self this.
Proof. by intros st. Qed.

Lemma keeps_os {A} (m : M world A) : keeps_self (os m).
Proof. intros st. unfold os. by destruct (m (sys st)). Qed.

Lemma keeps_bind {A B} (m : M machine A) (k : A -> M machine B) :
  keeps_self m -> (forall a, keeps_self (k a)) -> keeps_self (bind m k).
Proof.
  intros Hm Hk st. unfold bind. specialize (Hm st).
  destruct (m st) as [[a|e] st1]; simpl in *; [| done].
  by rewrite Hk.
Qed.

Lemma keeps_try_except {A} (m : M machine A) (h : exn -> option (M machine A)) :
  keeps_self m -> (forall e k, h e = Some k -> keeps_self k) -> keeps_self (try_except m h).
Proof.
  intros Hm Hh st. unfold try_except. specialize (Hm st).
  destruct (m st) as [[a|e] st1]; simpl in *; [done |].
  destruct (h e) as [k|] eqn:He; [| done].
  by rewrite (Hh e k He).
Qed.

Lemma keeps_if {A} (b : bool) (m1 m2 : M machine A) :
  keeps_self m1 -> keeps_self m2 -> keeps_self (if b then m1 else m2).
Proof. by destruct b. Qed.

End KeepsSelf.

#[local] Hint Resolve keeps_ret keeps_raise keeps_eval keeps_this keeps_os keeps_bind
  keeps_if : keeps.

Ltac keeps :=
  repeat first
    [ progress auto with keeps
    | apply keeps_bind; [| intros ?]
    | apply keeps_try_except;
      [| let e := fresh "e" in let k := fresh "k" in let H := fresh "H" in
         intros e k H; destruct e; simpl in H;
         repeat (match type of H with
                 | (if ?b then _ else _) = _ => destruct b
                 end);
         try discriminate H; injection H as <- ] ].

Section KeepsSelfMethods.

Import Spec DelegatedScope.

Lemma keeps_connect_systemd : keeps_self _connect_systemd.
Proof. unfold _connect_systemd. keeps. Qed.

Lemma keeps_start_unit : keeps_self _start_unit.
Proof. pose proof keeps_connect_systemd. unfold _start_unit. keeps. Qed.

Lemma keeps_stop_unit : keeps_self _stop_unit.
Proof. pose proof keeps_connect_systemd. unfold _stop_unit. keeps. Qed.

Lemma keeps_str : keeps_self __str__.
Proof. unfold __str__. keeps. Qed.

Lemma keeps_delegate_resource_control : keeps_self delegate_resource_control.
Proof. unfold delegate_resource_control. keeps. Qed.

End KeepsSelfMethods.

(** ** Sub-group creation: the paths returned *)

Section CreatedPaths.

Import Spec DelegatedScope.

Lemma subgroup_dirs_legacy (o : t) (name : string) :
  in_legacy o -> subgroup_dirs o name = legacy_dirs o name.
Proof. unfold in_legacy, subgroup_dirs, is_legacy. by intros ->. Qed.

Lemma subgroup_dirs_unified (o : t) (name : string) :
  in_unified o -> subgroup_dirs o name = [primary_dir o name].
Proof. unfold in_unified, subgroup_dirs, is_legacy. by intros ->. Qed.

Lemma create_subcgroup_calm (name : string) (st : machine) :
  calm (sys st) -> is_Some (CgMode._mode (_cgmode (self st))) ->
  exists st', create_subcgroup name st = (Return (Some (subgroup_dirs (self st) name)), st').
Proof.
  intros Hcalm Hmode. destruct (create_subcgroup name st) as [r st'] eqn:Hrun.
  destruct (create_subcgroup_spec _ _ _ _ Hrun) as (_ & _ & Hret & _ & Hc).
  destruct (Hc Hcalm Hmode) as [v ->]. destruct (Hret v eq_refl) as (-> & _). eauto.
Qed.

(** C1: in Legacy mode create_subcgroup returns exactly five paths, the
    primary path and then the paths under the cpu, memory, blkio and pids
    controllers, in that order; in Unified mode exactly one, the primary
    path.  (It returns whenever no call to the file system fails.) *)
Theorem create_subcgroup_returns_paths (name : string) (st : machine) :
  (in_legacy (self st) ->
   let paths := [primary_dir (self st) name;
                 controller_dir (self st) "cpu" name;
                 controller_dir (self st) "memory" name;
                 controller_dir (self st) "blkio" name;
                 controller_dir (self st) "pids" name] in
   (forall v st', create_subcgroup name st = (Return v, st') -> v = Some paths)
   /\ (calm (sys st) -> exists st', create_subcgroup name st = (Return (Some paths), st')))
  /\ (in_unified (self st) ->
      let paths := [primary_dir (self st) name] in
      (forall v st', create_subcgroup name st = (Return v, st') -> v = Some paths)
      /\ (calm (sys st) -> exists st', create_subcgroup name st = (Return (Some paths), st'))).
Proof.
  split; intros Hmode paths.
  - assert (Hpaths : subgroup_dirs (self st) name = paths)
      by (by rewrite subgroup_dirs_legacy).
    split.
    + intros v st' Hrun.
      destruct (create_subcgroup_spec _ _ _ _ Hrun) as (_ & _ & Hret & _).
      destruct (Hret v eq_refl) as (-> & _). by rewrite Hpaths.
    + intros Hcalm. rewrite <- Hpaths. apply create_subcgroup_calm; [done |].
      unfold in_legacy in Hmode. by rewrite Hmode.
  - assert (Hpaths : subgroup_dirs (self st) name = paths)
      by (by rewrite subgroup_dirs_unified).
    split.
    + intros v st' Hrun.
      destruct (create_subcgroup_spec _ _ _ _ Hrun) as (_ & _ & Hret & _).
      destruct (Hret v eq_refl) as (-> & _). by rewrite Hpaths.
    + intros Hcalm. rewrite <- Hpaths. apply create_subcgroup_calm; [done |].
      unfold in_unified in Hmode. by rewrite Hmode.
Qed.

Lemma create_subcgroup_returns_paths_witness :
  (exists st', create_subcgroup "manager" (legacy_scope ∅)
               = (Return (Some ["/sys/fs/cgroup/systemd/workload.slice/workload.scope/manager";
                                "/sys/fs/cgroup/cpu/workload.slice/workload.scope/manager";
                                "/sys/fs/cgroup/memory/workload.slice/workload.scope/manager";
                                "/sys/fs/cgroup/blkio/workload.slice/workload.scope/manager";
                                "/sys/fs/cgroup/pids/workload.slice/workload.scope/manager"]),
                  st'))
  /\ (exists st', create_subcgroup "manager" (unified_scope ∅)
                  = (Return (Some ["/sys/fs/cgroup/workload.slice/workload.scope/manager"]),
                     st')).
Proof.
  split.
  - apply (create_subcgroup_returns_paths "manager" (legacy_scope ∅)); [reflexivity |].
    intros h c. reflexivity.
  - apply (create_subcgroup_returns_paths "manager" (unified_scope ∅)); [reflexivity |].
    intros h c. reflexivity.
Defined.

End CreatedPaths.

(** ** Migration *)

Section MigrationClaims.

Import Spec DelegatedScope.

Lemma dir_call_on_dir_call (ds : list string) (c : call) : dir_call_on ds c -> dir_call c.
Proof. by intros (d & _ & [-> | ->]). Qed.

(** C4: migrating a pid into a sub-group that is not known yet creates the
    sub-group first.  While it is created nothing is written; if creation
    fails, migration fails with it and no write is ever tried; if it
    succeeds, then before the first write the directories create_subcgroup
    returns are all on disk and the name is registered, and all that
    follows is the writing of the pid. *)
Theorem migrate_pid_creates_first (subcgroup : string) (pid : Z) (st : machine) :
  subcgroup ∉ _subcgroups (self st) ->
  let r1 := fst (create_subcgroup subcgroup st) in
  let st1 := snd (create_subcgroup subcgroup st) in
  let r := fst (migrate_pid subcgroup pid st) in
  let st' := snd (migrate_pid subcgroup pid st) in
  calls_only dir_call (sys st) (sys st1)
  /\ files (sys st1) = files (sys st)
  /\ match r1 with
     | Raise e => r = Raise e /\ st' = st1
     | Return v =>
         v = Some (subgroup_dirs (self st) subcgroup)
         /\ (forall d, d ∈ subgroup_dirs (self st) subcgroup -> d ∈ dirs (sys st1))
         /\ subcgroup ∈ _subcgroups (self st1)
         /\ calls_only (write_call_on (procs_files (self st) subcgroup) (Py.str pid))
              (sys st1) (sys st')
     end.
Proof.
  intros Hnew. cbv zeta. rewrite (migrate_unknown _ _ _ Hnew).
  destruct (create_subcgroup subcgroup st) as [r1 st1] eqn:Hcreate. simpl.
  destruct (create_subcgroup_spec _ _ _ _ Hcreate) as (Hscope & (_ & Hfiles & Hcalls) & Hret & _).
  split; [eapply calls_only_mono; [apply dir_call_on_dir_call | exact Hcalls] |].
  split; [done |].
  destruct r1 as [v|e]; [| done].
  destruct (Hret v eq_refl) as (-> & Hdirs & Hknown).
  split; [done |]. split.
  { intros d Hd. rewrite Hdirs. apply elem_of_union_l. by apply elem_of_list_to_set. }
  assert (Hin : subcgroup ∈ _subcgroups (self st1))
    by (rewrite Hknown; by apply elem_of_union_l, elem_of_singleton).
  split; [done |].
  destruct (migrate_pid subcgroup pid st1) as [r st'] eqn:Hrun.
  destruct (migrate_known_spec _ _ _ _ _ Hin Hrun) as (_ & (_ & _ & Hwrites & _) & _).
  simpl. by rewrite <- (procs_files_same_scope (self st) (self st1)).
Qed.

Lemma migrate_pid_creates_first_witness :
  "/sys/fs/cgroup/workload.slice/workload.scope/manager"
    ∈ dirs (sys (snd (create_subcgroup "manager" (unified_scope ∅))))
  /\ "manager" ∈ _subcgroups (self (snd (create_subcgroup "manager" (unified_scope ∅)))).
Proof.
  assert (Hnew : "manager" ∉ _subcgroups (self (unified_scope ∅)))
    by apply not_elem_of_empty.
  pose proof (migrate_pid_creates_first "manager" 4242 (unified_scope ∅) Hnew) as H.
  cbv zeta in H. destruct H as (_ & _ & H).
  destruct (create_subcgroup "manager" (unified_scope ∅)) as [[v|e] st1] eqn:Hcreate.
  - destruct H as (_ & Hdirs & Hknown & _). split; [| exact Hknown].
    apply Hdirs. apply list_elem_of_here.
  - vm_compute in Hcreate. discriminate Hcreate.
Defined.

(** C10: migrating a pid into a sub-group that is known already leaves the
    object (and so the set of known sub-groups) and the directories as they
    were; every call it makes opens one of the sub-group's process-list
    files for writing or writes the decimal pid to it, and no other file
    changes; when it returns, it has written the pid to each of them in
    turn: to one file in Unified mode, to five in Legacy mode. *)
Theorem migrate_pid_known_only_writes (subcgroup : string) (pid : Z) (st : machine) :
  subcgroup ∈ _subcgroups (self st) ->
  let r := fst (migrate_pid subcgroup pid st) in
  let st' := snd (migrate_pid subcgroup pid st) in
  let fs := procs_files (self st) subcgroup in
  self st' = self st
  /\ dirs (sys st') = dirs (sys st)
  /\ calls_only (write_call_on fs (Py.str pid)) (sys st) (sys st')
  /\ (forall q, q ∉ fs -> files (sys st') !! q = files (sys st) !! q)
  /\ (r = Return tt ->
      (forall f, f ∈ fs -> files (sys st') !! f = Some (Py.str pid))
      /\ log (sys st') = log (sys st) ++ write_events fs (Py.str pid))
  /\ (in_unified (self st) -> fs = [primary_dir (self st) subcgroup +:+ "/cgroup.procs"])
  /\ (in_legacy (self st) ->
      fs = [primary_dir (self st) subcgroup +:+ "/cgroup.procs";
            controller_dir (self st) "cpu" subcgroup +:+ "/cgroup.procs";
            controller_dir (self st) "memory" subcgroup +:+ "/cgroup.procs";
            controller_dir (self st) "blkio" subcgroup +:+ "/cgroup.procs";
            controller_dir (self st) "pids" subcgroup +:+ "/cgroup.procs"])
  /\ (calm (sys st) -> is_Some (CgMode._mode (_cgmode (self st))) -> r = Return tt).
Proof.
  intros Hknown. cbv zeta.
  destruct (migrate_pid subcgroup pid st) as [r st'] eqn:Hrun. simpl.
  destruct (migrate_known_spec _ _ _ _ _ Hknown Hrun)
    as (Hself & (_ & Hdirs & Hcalls & Hother) & Hret & Hcalm).
  split; [done |]. split; [done |]. split; [done |]. split; [done |].
  split; [| split; [| split; [| done]]].
  - intros Hr. destruct (Hret Hr) as [Hfiles Hlog]. split; [| done].
    intros f Hf. rewrite Hfiles. by apply written_lookup.
  - intros Hmode. unfold procs_files. by rewrite subgroup_dirs_unified.
  - intros Hmode. unfold procs_files. by rewrite subgroup_dirs_legacy.
Qed.

Lemma migrate_pid_known_only_writes_witness :
  files (sys (snd (migrate_pid "manager" 4242 (unified_scope {["manager"]}))))
    !! "/sys/fs/cgroup/workload.slice/workload.scope/manager/cgroup.procs"
  = Some "4242".
Proof.
  assert (Hknown : "manager" ∈ _subcgroups (self (unified_scope {["manager"]})))
    by (apply (bool_decide_unpack _); vm_compute; exact I).
  destruct (migrate_pid_known_only_writes "manager" 4242 (unified_scope {["manager"]}) Hknown)
    as (_ & _ & _ & _ & Hret & _ & _ & Hcalm).
  apply Hret.
  - apply Hcalm; [intros h c; reflexivity | by eexists].
  - apply list_elem_of_here.
Defined.

End MigrationClaims.

(** ** Delegation of the controllers *)

Section Delegation.

Import Spec DelegatedScope.

(** C5: in Legacy mode delegate_resource_control returns at once, the world
    untouched; in Unified mode all it does is open the scope's
    cgroup.subtree_control for writing and write [+cpu +memory +pids +io]
    to it, and when it returns the file holds exactly that. *)
Theorem delegate_resource_control_by_mode (st : machine) :
  (in_legacy (self st) -> delegate_resource_control st = (Return tt, st))
  /\ (in_unified (self st) ->
      let r := fst (delegate_resource_control st) in
      let st' := snd (delegate_resource_control st) in
      let f := subtree_control (self st) in
      self st' = self st
      /\ write_steps [f] "+cpu +memory +pids +io" (sys st) (sys st')
      /\ (r = Return tt ->
          files (sys st') = <[f := "+cpu +memory +pids +io"]> (files (sys st))
          /\ log (sys st')
             = log (sys st) ++ [(OpenW f, None); (FWrite f "+cpu +memory +pids +io", None)])
      /\ (calm (sys st) -> r = Return tt)).
Proof.
  split; [apply delegate_resource_control_legacy |].
  intros Hmode. cbv zeta. rewrite (delegate_resource_control_unified st Hmode).
  apply write_spec. apply list_elem_of_here.
Qed.

Lemma delegate_resource_control_by_mode_witness :
  delegate_resource_control (legacy_scope ∅) = (Return tt, legacy_scope ∅)
  /\ files (sys (snd (delegate_resource_control (unified_scope ∅))))
       !! "/sys/fs/cgroup/workload.slice/workload.scope/cgroup.subtree_control"
     = Some "+cpu +memory +pids +io".
Proof.
  split.
  - apply (delegate_resource_control_by_mode (legacy_scope ∅)). reflexivity.
  - destruct (delegate_resource_control_by_mode (unified_scope ∅)) as [_ H].
    destruct (H eq_refl) as (_ & _ & Hret & Hcalm).
    destruct Hret as [-> _]; [apply Hcalm; intros h c; reflexivity |].
    apply lookup_insert_eq.
Defined.

End Delegation.

(** ** Creating a sub-group twice *)

Section Idempotence.

Import Spec DelegatedScope.

Lemma filter_eq_absent (x : string) (l : list string) :
  x ∉ l -> filter (fun y => y = x) l = [].
Proof.
  induction l as [|y l IH]; [done |]. intros Hx. rewrite filter_cons.
  apply not_elem_of_cons in Hx as [Hne Hx].
  destruct (decide (y = x)) as [-> | _]; [done | by apply IH].
Qed.

Lemma filter_eq_NoDup (x : string) (l : list string) :
  NoDup l -> x ∈ l -> length (filter (fun y => y = x) l) = 1%nat.
Proof.
  induction 1 as [|y l Hy Hnd IH]; [by intros ?%elem_of_nil |].
  rewrite filter_cons. intros Hin. destruct (decide (y = x)) as [-> | Hne].
  - simpl. by rewrite filter_eq_absent.
  - apply IH. by apply elem_of_cons in Hin as [-> | Hin].
Qed.

(** C6: when create_subcgroup is called twice with the same name (and
    returns both times), the second call returns the paths the first
    returned, leaves the directories on disk as the first left them, and
    leaves the set of known sub-groups as it was, with the name in it once.
    On a host where no call fails both calls do return. *)
Theorem create_subcgroup_idempotent (name : string) (st : machine) :
  (forall v1 st1 v2 st2,
      create_subcgroup name st = (Return v1, st1) ->
      create_subcgroup name st1 = (Return v2, st2) ->
      v2 = v1
      /\ dirs (sys st2) = dirs (sys st1)
      /\ _subcgroups (self st2) = _subcgroups (self st1)
      /\ name ∈ _subcgroups (self st2)
      /\ length (filter (fun n => n = name) (elements (_subcgroups (self st2)))) = 1%nat)
  /\ (calm (sys st) -> is_Some (CgMode._mode (_cgmode (self st))) ->
      exists v st1 st2,
        create_subcgroup name st = (Return v, st1)
        /\ create_subcgroup name st1 = (Return v, st2)).
Proof.
  split.
  - intros v1 st1 v2 st2 Hrun1 Hrun2.
    destruct (create_subcgroup_spec _ _ _ _ Hrun1) as (Hscope1 & _ & Hret1 & _).
    destruct (create_subcgroup_spec _ _ _ _ Hrun2) as (_ & _ & Hret2 & _).
    destruct (Hret1 v1 eq_refl) as (-> & Hdirs1 & Hknown1).
    destruct (Hret2 v2 eq_refl) as (-> & Hdirs2 & Hknown2).
    rewrite (subgroup_dirs_same_scope _ _ _ Hscope1) in Hdirs2 |- *.
    assert (Hin : name ∈ _subcgroups (self st2)).
    { rewrite Hknown2. by apply elem_of_union_l, elem_of_singleton. }
    split; [done |]. split; [| split; [| split; [done |]]].
    + rewrite Hdirs2, Hdirs1. by rewrite (assoc_L (∪)), (idemp_L (∪)).
    + rewrite Hknown2, Hknown1. by rewrite (assoc_L (∪)), (idemp_L (∪)).
    + apply filter_eq_NoDup; [apply NoDup_elements | by apply elem_of_elements].
  - intros Hcalm Hmode.
    destruct (create_subcgroup_calm name st Hcalm Hmode) as [st1 Hrun1].
    destruct (create_subcgroup_spec _ _ _ _ Hrun1) as (Hscope1 & (Hhost & _) & _).
    destruct (create_subcgroup_calm name st1) as [st2 Hrun2].
    + by eapply calm_same_host.
    + destruct Hscope1 as (-> & _). done.
    + rewrite (subgroup_dirs_same_scope _ _ _ Hscope1) in Hrun2. eauto.
Qed.

Lemma create_subcgroup_idempotent_witness :
  exists v st1 st2,
    create_subcgroup "manager" (legacy_scope ∅) = (Return v, st1)
    /\ create_subcgroup "manager" st1 = (Return v, st2)
    /\ dirs (sys st2) = dirs (sys st1)
    /\ length (filter (fun n => n = "manager") (elements (_subcgroups (self st2)))) = 1%nat.
Proof.
  destruct (create_subcgroup_idempotent "manager" (legacy_scope ∅)) as [Hsame Hreturns].
  destruct Hreturns as (v & st1 & st2 & Hrun1 & Hrun2).
  - intros h c. reflexivity.
  - by eexists.
  - exists v, st1, st2. split; [done |]. split; [done |].
    destruct (Hsame v st1 v st2 Hrun1 Hrun2) as (_ & Hdirs & _ & _ & Honce). done.
Defined.

End Idempotence.

(** ** The empty name *)

Section EmptyName.

Import Spec DelegatedScope.

(** C7, the code at the empty name on a Unified scope with no sub-group
    yet: no error is reported; the directory [<base>/] is removed and made,
    its path returned, and the empty name registered. *)
Theorem create_subcgroup_empty_name :
  let run := create_subcgroup "" (unified_scope ∅) in
  fst run = Return (Some ["/sys/fs/cgroup/workload.slice/workload.scope/"])
  /\ elements (_subcgroups (self (snd run))) = [""]
  /\ elements (dirs (sys (snd run))) = ["/sys/fs/cgroup/workload.slice/workload.scope/"]
  /\ log (sys (snd run))
     = [(Rmdir "/sys/fs/cgroup/workload.slice/workload.scope/", Some FileNotFoundError);
        (Mkdir "/sys/fs/cgroup/workload.slice/workload.scope/", None)].
Proof. vm_compute. repeat split. Qed.

(** On every scope and in every world the empty name is treated as any
    other: if the call returns, it returns paths and has registered the
    name. *)
Lemma create_subcgroup_never_rejects (st : machine) (v : option (list string))
    (st' : machine) :
  create_subcgroup "" st = (Return v, st') ->
  is_Some v /\ "" ∈ _subcgroups (self st').
Proof.
  intros Hrun. destruct (create_subcgroup_spec _ _ _ _ Hrun) as (_ & _ & Hret & _).
  destruct (Hret v eq_refl) as (-> & _ & ->). split; [by eexists |].
  by apply elem_of_union_l, elem_of_singleton.
Qed.

End EmptyName.

(** ** The set of known sub-groups *)

Section KnownSubgroups.

Import Spec DelegatedScope.

Lemma init_known_empty (name slice : string) (w w' : world) (o : t) :
  __init__ name slice w = (Return o, w') -> _subcgroups o = ∅.
Proof.
  unfold __init__.
  destruct (negb (Py.endswith slice ".slice")); [done |].
  destruct (negb (Py.endswith name ".scope")); [done |].
  rewrite bind_run. destruct (CgMode.__init__ w) as [[cg|e] w1]; [| done].
  rewrite bind_run. unfold eval at 1.
  destruct (CgMode.__eq__ cg CgMode.HYBRID) as [[]|e]; [done | | done].
  rewrite bind_run. unfold eval at 1.
  destruct (CgMode.__eq__ cg CgMode.LEGACY) as [legacy|e]; [| done].
  unfold construct.
  match goal with |- context [_start_unit ?s] =>
    pose proof (keeps_start_unit s) as Hkeeps; destruct (_start_unit s) as [[u|e] st]
  end; [| done].
  intros [= <- <-]. simpl in Hkeeps. by rewrite Hkeeps.
Qed.

Lemma create_subcgroup_grows (name : string) (st : machine) :
  _subcgroups (self st) ⊆ _subcgroups (self (snd (create_subcgroup name st))).
Proof.
  destruct (create_subcgroup name st) as [[v|e] st'] eqn:Hrun; simpl;
    destruct (create_subcgroup_spec _ _ _ _ Hrun) as (_ & _ & Hret & Hraise & _).
  - destruct (Hret v eq_refl) as (_ & _ & ->). apply union_subseteq_r.
  - by rewrite (Hraise e eq_refl).
Qed.

Lemma migrate_pid_grows (name : string) (pid : Z) (st : machine) :
  _subcgroups (self st) ⊆ _subcgroups (self (snd (migrate_pid name pid st))).
Proof.
  assert (Hknown : forall s, name ∈ _subcgroups (self s) ->
                             self (snd (migrate_pid name pid s)) = self s).
  { intros s Hin. destruct (migrate_pid name pid s) as [r s'] eqn:Hrun. simpl.
    by destruct (migrate_known_spec _ _ _ _ _ Hin Hrun) as (-> & _). }
  destruct (decide (name ∈ _subcgroups (self st))) as [Hin | Hnew].
  - by rewrite Hknown.
  - rewrite (migrate_unknown _ _ _ Hnew).
    pose proof (create_subcgroup_grows name st) as Hgrows.
    destruct (create_subcgroup name st) as [[v|e] st1] eqn:Hrun; simpl in *; [| done].
    destruct (create_subcgroup_spec _ _ _ _ Hrun) as (_ & _ & Hret & _).
    destruct (Hret v eq_refl) as (_ & _ & Hk).
    rewrite Hknown; [done |]. rewrite Hk. by apply elem_of_union_l, elem_of_singleton.
Qed.

Lemma migrate_pid_registers (name : string) (pid : Z) (st st' : machine) :
  migrate_pid name pid st = (Return tt, st') -> name ∈ _subcgroups (self st').
Proof.
  intros Hrun. destruct (decide (name ∈ _subcgroups (self st))) as [Hin | Hnew].
  - pose proof (migrate_pid_grows name pid st) as Hgrows. rewrite Hrun in Hgrows.
    by apply Hgrows.
  - rewrite (migrate_unknown _ _ _ Hnew) in Hrun.
    destruct (create_subcgroup name st) as [[v|e] st1] eqn:Hcreate; [| done].
    destruct (create_subcgroup_spec _ _ _ _ Hcreate) as (_ & _ & Hret & _).
    destruct (Hret v eq_refl) as (_ & _ & Hk).
    pose proof (migrate_pid_grows name pid st1) as Hgrows. rewrite Hrun in Hgrows.
    apply Hgrows. rewrite Hk. by apply elem_of_union_l, elem_of_singleton.
Qed.

(** C9: the set of known sub-groups is empty when construction returns; no
    method makes it smaller, whether the method returns or raises; and when
    create_subcgroup or migrate_pid returns, the name is in it. *)
Theorem known_subgroups_only_grow :
  (forall name slice w w' o,
      __init__ name slice w = (Return o, w') -> _subcgroups o = ∅)
  /\ (forall name st,
         _subcgroups (self st) ⊆ _subcgroups (self (snd (create_subcgroup name st))))
  /\ (forall name pid st,
         _subcgroups (self st) ⊆ _subcgroups (self (snd (migrate_pid name pid st))))
  /\ (forall st,
         _subcgroups (self st) ⊆ _subcgroups (self (snd (delegate_resource_control st))))
  /\ (forall st, _subcgroups (self st) ⊆ _subcgroups (self (snd (__str__ st))))
  /\ (forall st, _subcgroups (self st) ⊆ _subcgroups (self (snd (__del__ st))))
  /\ (forall name st v st',
         create_subcgroup name st = (Return v, st') -> name ∈ _subcgroups (self st'))
  /\ (forall name pid st st',
         migrate_pid name pid st = (Return tt, st') -> name ∈ _subcgroups (self st')).
Proof.
  split; [intros *; apply init_known_empty |].
  split; [apply create_subcgroup_grows |].
  split; [apply migrate_pid_grows |].
  split; [intros st; by rewrite keeps_delegate_resource_control |].
  split; [intros st; by rewrite keeps_str |].
  split; [intros st; unfold __del__; by rewrite keeps_stop_unit |].
  split; [| apply migrate_pid_registers].
  intros name st v st' Hrun.
  destruct (create_subcgroup_spec _ _ _ _ Hrun) as (_ & _ & Hret & _).
  destruct (Hret v eq_refl) as (_ & _ & ->). by apply elem_of_union_l, elem_of_singleton.
Qed.

Lemma known_subgroups_only_grow_witness :
  (exists o w',
      __init__ "workload.scope" "workload.slice" (host unified_table) = (Return o, w')
      /\ _subcgroups o = ∅)
  /\ "workers"
       ∈ _subcgroups (self (snd (migrate_pid "workers" 4243 (legacy_scope {["manager"]})))).
Proof.
  destruct known_subgroups_only_grow as (Hinit & _ & _ & _ & _ & _ & _ & Hmigrate).
  split.
  - destruct (__init__ "workload.scope" "workload.slice" (host unified_table))
      as [[o|e] w'] eqn:Hrun.
    + exists o, w'. split; [done |]. by apply (Hinit _ _ _ _ _ Hrun).
    + vm_compute in Hrun. discriminate Hrun.
  - destruct (migrate_pid "workers" 4243 (legacy_scope {["manager"]}))
      as [[[]|e] st'] eqn:Hrun.
    + by apply (Hmigrate _ _ _ _ Hrun).
    + vm_compute in Hrun. discriminate Hrun.
Defined.

End KnownSubgroups.

(** * Beyond the claims: the rest of the two classes *)

(** ** Talking to systemd *)

Ltac run_method :=
  unfold DelegatedScope._stop_unit, DelegatedScope._start_unit,
    DelegatedScope._connect_systemd, DelegatedScope.__str__, DelegatedScope.this,
    DelegatedScope.os, Sys.get_object, Sys.getpid, Sys.start_transient_unit,
    Sys.stop_unit, Sys.sleep, Sys.popen, Sys.wait, Sys.logging_info, Sys.logging_error;
  unfold bind, try_except, syscall, ret, raise; simpl;
  repeat (match goal with
          | |- context [match fault ?w ?h ?c with _ => _ end] =>
              let F := fresh "Hfault" in
              let e := fresh "e" in
              destruct (fault w h c) as [e|] eqn:F; [destruct e |]; simpl
          | |- context [bool_decide ?P] => destruct (bool_decide_reflect P); simpl
          | |- context [String.eqb ?a ?b] =>
              let E := fresh "Hname" in destruct (String.eqb a b) eqn:E; simpl
          end).

Section Teardown.

Import Spec Shape DelegatedScope.

(** X1: stopping the unit never raises an [Exception]: whatever the bus or
    systemd answer, [_stop_unit] returns, and only an interrupt of the
    process itself passes through.  It leaves the object, the directories and
    the files alone. *)
Theorem stop_unit_swallows_errors (st : machine) :
  let r := fst (_stop_unit st) in
  let st' := snd (_stop_unit st) in
  (r = Return tt \/ r = Raise KeyboardInterrupt)
  /\ (r = Return tt ->
      last (log (sys st')) = Some (StopUnit (_scope (self st)) "replace", None)
      \/ last (log (sys st')) = Some (LogError "Failed to stop scope unit: {e}", None))
  /\ self st' = self st
  /\ same_files_and_dirs (sys st) (sys st').
Proof.
  unfold same_files_and_dirs.
  run_method; rewrite ?last_snoc; repeat split; auto; discriminate.
Qed.

(** X2: [__str__] never hands out the tree: it returns the text [None] when
    systemd-cgls could be run and waited for, and the empty text (after a
    note in the log) when either failed with an [Exception]; it leaves the
    object, the directories and the files alone. *)
Theorem str_returns_no_tree (st : machine) :
  let r := fst (__str__ st) in
  let st' := snd (__str__ st) in
  (r = Return "None"
   /\ log (sys st')
      = log (sys st) ++ [(Popen ["systemd-cgls"; "--no-pager"; _cgpath (self st)], None);
                         (Wait, None)]
   \/ r = Return ""
      /\ (exists e, is_Exception e = true
                    /\ last (log (sys st'))
                       = Some (LogInfo ("Failed to run systemd-cgls: " +:+ exn_str e), None))
   \/ r = Raise KeyboardInterrupt)
  /\ self st' = self st
  /\ same_files_and_dirs (sys st) (sys st').
Proof.
  unfold same_files_and_dirs.
  run_method; rewrite ?last_snoc, <- ?app_assoc; simpl;
    (split; [| by auto]);
    first [ by left
          | by right; right
          | match goal with
            | H : fault _ _ _ = Some ?e |- _ =>
                right; left; split; [done |]; exists e; split; reflexivity
            end ].
Qed.

End Teardown.

Section StartUnit.

Import Spec Shape DelegatedScope.

Lemma start_unit_cases (st : machine) :
  let r := fst (_start_unit st) in
  let st' := snd (_start_unit st) in
  (r = Return tt /\ last (log (sys st')) = Some (Sleep, None)
   \/ (exists e, r = Raise e /\ last (log (sys st')) = Some (Sleep, Some e))
   \/ r = Raise (RuntimeError "Failed to start scope unit")
   \/ (exists n, r = Raise (DBusException n)
                 /\ n <> "org.freedesktop.systemd1.UnitExists")
   \/ r = Raise KeyboardInterrupt)
  /\ self st' = self st
  /\ same_files_and_dirs (sys st) (sys st').
Proof.
  unfold same_files_and_dirs.
  run_method; rewrite ?last_snoc; (split; [| by auto]);
    first [ by left
          | by right; right; left
          | by right; right; right; right
          | right; left; eexists; split; reflexivity
          | right; right; right; left; eexists; split; [reflexivity |];
            by apply String.eqb_neq ].
Qed.

(** X3: how [_start_unit] can end.  It returns after the sleep; or the sleep
    itself fails; or it raises [RuntimeError]; or it raises a D-Bus error
    other than UnitExists; or the process is interrupted.  No
    [ConnectionError] and no UnitExists error leaves it, and it leaves the
    object, the directories and the files alone. *)
Theorem start_unit_outcomes (st : machine) :
  let r := fst (_start_unit st) in
  let st' := snd (_start_unit st) in
  (r = Return tt /\ last (log (sys st')) = Some (Sleep, None)
   \/ (exists e, r = Raise e /\ last (log (sys st')) = Some (Sleep, Some e))
   \/ r = Raise (RuntimeError "Failed to start scope unit")
   \/ (exists n, r = Raise (DBusException n)
                 /\ n <> "org.freedesktop.systemd1.UnitExists")
   \/ r = Raise KeyboardInterrupt)
  /\ self st' = self st
  /\ same_files_and_dirs (sys st) (sys st').
Proof. apply start_unit_cases. Qed.

(** X4: a bus that cannot be reached makes [_start_unit] raise
    [RuntimeError], whatever the error of the bus was (a D-Bus error named
    UnitExists included): the [ConnectionError] of [_connect_systemd] is
    caught again.  Nothing else has been called by then. *)
Theorem start_unit_without_bus (st : machine) (e : exn) :
  fault (sys st) (log (sys st))
    (GetObject "org.freedesktop.systemd1" "/org/freedesktop/systemd1") = Some e ->
  is_Exception e = true ->
  _start_unit st
  = (Raise (RuntimeError "Failed to start scope unit"),
     {| self := self st;
        sys := record (GetObject "org.freedesktop.systemd1" "/org/freedesktop/systemd1")
                 (Some e) (sys st) |}).
Proof.
  intros Hfault Hexn.
  unfold _start_unit, _connect_systemd, os, Sys.get_object.
  unfold bind, try_except, syscall. simpl. rewrite Hfault. simpl.
  by destruct e.
Qed.

Lemma start_unit_without_bus_witness :
  fst (_start_unit {| self := self (unified_scope ∅); sys := host_without_bus unified_table |})
  = Raise (RuntimeError "Failed to start scope unit").
Proof.
  by rewrite (start_unit_without_bus _ (DBusException "org.freedesktop.DBus.Error.NoServer")).
Defined.

Lemma start_unit_calm_run (st : machine) :
  calm (sys st) ->
  let name := _scope (self st) in
  let start := StartTransientUnit name "replace" (unit_properties (pid (sys st)) (_slice (self st))) in
  exists st',
    _start_unit st = (Return tt, st')
    /\ self st' = self st
    /\ units (sys st') = {[name]} ∪ units (sys st)
    /\ log (sys st')
       = log (sys st)
         ++ [(GetObject "org.freedesktop.systemd1" "/org/freedesktop/systemd1", None);
             (Getpid, None)]
         ++ (if bool_decide (name ∈ units (sys st))
             then [(start, Some (DBusException "org.freedesktop.systemd1.UnitExists"));
                   (LogInfo "Scope unit already exists, rusing.", None)]
             else [(start, None)])
         ++ [(Sleep, None)].
Proof.
  intros Hcalm name start. subst name start. unfold unit_properties.
  unfold _start_unit, _connect_systemd, this, os, Sys.get_object, Sys.getpid,
    Sys.start_transient_unit, Sys.sleep, Sys.logging_info.
  unfold bind, try_except, syscall, ret, raise. simpl.
  repeat (rewrite Hcalm; simpl).
  destruct (bool_decide_reflect (_scope (self st) ∈ units (sys st))) as [Hin | Hnew]; simpl.
  - repeat (rewrite Hcalm; simpl). eexists. split; [reflexivity |]. simpl.
    split; [done |]. split; [| by rewrite <- !app_assoc].
    symmetry. apply subseteq_union_1_L. by apply singleton_subseteq_l.
  - repeat (rewrite Hcalm; simpl). eexists. split; [reflexivity |]. simpl.
    split; [done |]. split; [done | by rewrite <- !app_assoc].
Qed.

(** X5: on a host where no call fails [_start_unit] returns whether systemd
    has the unit already or not, and systemd has it afterwards; a unit that
    is there already is reused, with a note in the log. *)
Theorem start_unit_on_calm_host (st : machine) :
  calm (sys st) ->
  let name := _scope (self st) in
  let start := StartTransientUnit name "replace" (unit_properties (pid (sys st)) (_slice (self st))) in
  exists st',
    _start_unit st = (Return tt, st')
    /\ self st' = self st
    /\ units (sys st') = {[name]} ∪ units (sys st)
    /\ log (sys st')
       = log (sys st)
         ++ [(GetObject "org.freedesktop.systemd1" "/org/freedesktop/systemd1", None);
             (Getpid, None)]
         ++ (if bool_decide (name ∈ units (sys st))
             then [(start, Some (DBusException "org.freedesktop.systemd1.UnitExists"));
                   (LogInfo "Scope unit already exists, rusing.", None)]
             else [(start, None)])
         ++ [(Sleep, None)].
Proof. apply start_unit_calm_run. Qed.

Lemma start_unit_on_calm_host_witness :
  exists st',
    _start_unit {| self := self (unified_scope ∅);
                   sys := host_with_unit unified_table "workload.scope" |}
    = (Return tt, st')
    /\ last (removelast (log (sys st')))
       = Some (LogInfo "Scope unit already exists, rusing.", None).
Proof.
  destruct (start_unit_on_calm_host
              {| self := self (unified_scope ∅);
                 sys := host_with_unit unified_table "workload.scope" |})
    as (st' & Hrun & _ & _ & Hlog).
  - intros h c. reflexivity.
  - exists st'. split; [exact Hrun |]. rewrite Hlog. reflexivity.
Defined.

End StartUnit.

(** ** Construction, beyond the name checks *)

Section ConstructionMore.

Import Spec Shape DelegatedScope.

Lemma detected_modes (w w1 : world) (cg : CgMode.t) :
  CgMode.__init__ w = (Return cg, w1) ->
  (CgMode._mode cg = None \/ cg = Unified \/ cg = Legacy \/ cg = Hybrid)
  /\ w1 = record DiskPartitions None w.
Proof.
  unfold CgMode.__init__, bind, Sys.disk_partitions, syscall.
  destruct (fault w (log w) DiskPartitions); [done |]. simpl.
  destruct (CgMode.cgroup_mounts (mounts w) !! "/sys/fs/cgroup") as [root|];
    [| intros [= <- <-]; auto].
  repeat (match goal with |- context [if ?b then _ else _] => destruct b end);
    intros [= <- <-]; auto.
Qed.

Lemma init_run (name slice : string) (w w' : world) (o : t) :
  __init__ name slice w = (Return o, w') ->
  Py.endswith slice ".slice" = true /\ Py.endswith name ".scope" = true
  /\ exists cg legacy st',
      CgMode.__init__ w = (Return cg, record DiskPartitions None w)
      /\ CgMode.__eq__ cg CgMode.HYBRID = Return false
      /\ CgMode.__eq__ cg CgMode.LEGACY = Return legacy
      /\ o = {| _cgmode := cg; _slice := slice; _scope := name;
                _cgpath := "/sys/fs/cgroup/" +:+ (if legacy then "systemd/" else "")
                           +:+ slice +:+ "/" +:+ name;
                _subcgroups := ∅ |}
      /\ _start_unit {| self := o; sys := record DiskPartitions None w |} = (Return tt, st')
      /\ w' = sys st'.
Proof.
  unfold __init__.
  destruct (Py.endswith slice ".slice"); [| done].
  destruct (Py.endswith name ".scope"); [| done]. simpl.
  rewrite bind_run. destruct (CgMode.__init__ w) as [[cg|e] w1] eqn:Hdetect; [| done].
  destruct (detected_modes _ _ _ Hdetect) as [_ ->].
  rewrite bind_run. unfold eval at 1.
  destruct (CgMode.__eq__ cg CgMode.HYBRID) as [[]|e] eqn:Hhybrid; [done | | done].
  rewrite bind_run. unfold eval at 1.
  destruct (CgMode.__eq__ cg CgMode.LEGACY) as [legacy|e] eqn:Hlegacy; [| done].
  unfold construct.
  match goal with |- context [_start_unit ?s] =>
    pose proof (keeps_start_unit s) as Hkeeps;
    destruct (_start_unit s) as [[[]|e] st] eqn:Hstart
  end; [| done].
  simpl in Hkeeps. intros [= <- <-]. split; [done |]. split; [done |].
  exists cg, legacy, st. rewrite Hkeeps. done.
Qed.

(** X6: what construction returns.  The names had their suffixes; the scope
    is in Legacy or in Unified mode (never Hybrid, never without a mode);
    its base path is the cgroup root, [systemd/] in Legacy mode, the slice
    and the scope; and the last thing done was the sleep after the unit was
    asked for. *)
Theorem init_returns_active_scope (name slice : string) (w w' : world) (o : t) :
  __init__ name slice w = (Return o, w') ->
  ends_with slice ".slice" /\ ends_with name ".scope"
  /\ _slice o = slice /\ _scope o = name
  /\ active o
  /\ last (log w') = Some (Sleep, None).
Proof.
  intros Hrun.
  destruct (init_run _ _ _ _ _ Hrun)
    as (Hslice & Hname & cg & legacy & st' & Hdetect & Hhybrid & Hlegacy & -> & Hstart & ->).
  apply endswith_spec in Hslice, Hname.
  split; [done |]. split; [done |]. split; [done |]. split; [done |]. split.
  - destruct (detected_modes _ _ _ Hdetect) as [[Hnone | [-> | [-> | ->]]] _].
    + unfold CgMode.__eq__, CgMode.get_mode in Hhybrid. by rewrite Hnone in Hhybrid.
    + injection Hlegacy as <-. by right.
    + injection Hlegacy as <-. by left.
    + discriminate Hhybrid.
  - match type of Hstart with _start_unit ?s = _ => pose proof (start_unit_cases s) as H end.
    cbv zeta in H. rewrite Hstart in H. simpl in H.
    destruct H as [[[_ Hlast] | [(e & He & _) | [He | [(n & He & _) | He]]]] _];
      [done | discriminate He ..].
Qed.

Lemma init_returns_active_scope_witness :
  exists o w',
    __init__ "workload.scope" "workload.slice" (host legacy_table) = (Return o, w')
    /\ active o
    /\ _cgpath o = "/sys/fs/cgroup/systemd/workload.slice/workload.scope".
Proof.
  destruct (__init__ "workload.scope" "workload.slice" (host legacy_table))
    as [[o|e] w'] eqn:Hrun; [| vm_compute in Hrun; discriminate Hrun].
  exists o, w'. split; [done |].
  destruct (init_returns_active_scope _ _ _ _ _ Hrun) as (_ & _ & _ & _ & Hactive & _).
  split; [done |]. vm_compute in Hrun. by injection Hrun as <- _.
Defined.

(** X7: on a host whose mount table has no row for /sys/fs/cgroup,
    construction with well-formed names raises [AttributeError]: detection
    returns an object without a mode, and the comparison with HYBRID fails on
    it.  Only the mount table has been read by then. *)
Theorem init_without_root_mount (name slice : string) (w : world) :
  ends_with slice ".slice" -> ends_with name ".scope" ->
  fault w (log w) DiskPartitions = None ->
  root_mount (mounts w) = None ->
  __init__ name slice w
  = (Raise (AttributeError "'CgMode' object has no attribute '_mode'"),
     record DiskPartitions None w).
Proof.
  intros Hslice Hname Hread Hroot. apply endswith_spec in Hslice, Hname.
  unfold __init__. rewrite Hslice, Hname. simpl.
  rewrite bind_run, (detection_run w Hread), Hroot. reflexivity.
Qed.

Lemma init_without_root_mount_witness :
  fst (__init__ "workload.scope" "workload.slice" (host []))
  = Raise (AttributeError "'CgMode' object has no attribute '_mode'").
Proof.
  rewrite (init_without_root_mount "workload.scope" "workload.slice" (host [])).
  - reflexivity.
  - by exists "workload".
  - by exists "workload".
  - reflexivity.
  - reflexivity.
Defined.

Lemma detection_of_patterns (w : world) :
  fault w (log w) DiskPartitions = None ->
  (unified_pattern (mounts w) ->
   CgMode.__init__ w = (Return Unified, record DiskPartitions None w))
  /\ (legacy_pattern (mounts w) ->
      CgMode.__init__ w = (Return Legacy, record DiskPartitions None w)).
Proof.
  intros Hread. rewrite (detection_run w Hread). split.
  - intros (root & -> & Hty). by rewrite Hty.
  - intros [(root & -> & Hty) Hnamed]. rewrite Hty. simpl.
    apply named_hierarchy_is_spec in Hnamed. by rewrite Hnamed.
Qed.

(** X8: on a Unified or Legacy host where no call fails, construction with
    well-formed names returns a scope; systemd then has a unit of the scope's
    name, and no directory or file has been touched. *)
Theorem init_on_calm_host (name slice : string) (w : world) :
  calm w ->
  ends_with slice ".slice" -> ends_with name ".scope" ->
  unified_pattern (mounts w) \/ legacy_pattern (mounts w) ->
  exists o w',
    __init__ name slice w = (Return o, w')
    /\ name ∈ units w'
    /\ same_files_and_dirs w w'.
Proof.
  intros Hcalm Hslice Hname Hpattern. apply endswith_spec in Hslice, Hname.
  destruct (detection_of_patterns w (Hcalm _ _)) as [Hunified Hlegacy].
  unfold __init__. rewrite Hslice, Hname. simpl. rewrite bind_run.
  assert (Hmode : exists cg legacy,
             CgMode.__init__ w = (Return cg, record DiskPartitions None w)
             /\ CgMode.__eq__ cg CgMode.HYBRID = Return false
             /\ CgMode.__eq__ cg CgMode.LEGACY = Return legacy).
  { destruct Hpattern as [H | H].
    - exists Unified, false. by rewrite (Hunified H).
    - exists Legacy, true. by rewrite (Hlegacy H). }
  destruct Hmode as (cg & legacy & -> & Hhybrid & Hleg).
  rewrite bind_run. unfold eval at 1. rewrite Hhybrid.
  rewrite bind_run. unfold eval at 1. rewrite Hleg.
  unfold construct.
  match goal with |- context [_start_unit ?s] =>
    destruct (start_unit_calm_run s) as (st' & Hstart & Hself & Hunits & _);
      [intros h c; apply Hcalm |]
  end.
  rewrite Hstart. eexists _, _. split; [reflexivity |]. split.
  - rewrite Hunits. simpl. by apply elem_of_union_l, elem_of_singleton.
  - match type of Hstart with _start_unit ?s = _ =>
      pose proof (start_unit_cases s) as (_ & _ & Hsame) end.
    by rewrite Hstart in Hsame.
Qed.

Lemma init_on_calm_host_witness :
  exists o w',
    __init__ "workload.scope" "workload.slice" (host unified_table) = (Return o, w')
    /\ "workload.scope" ∈ units w'.
Proof.
  destruct (init_on_calm_host "workload.scope" "workload.slice" (host unified_table))
    as (o & w' & Hrun & Hunit & _).
  - intros h c. reflexivity.
  - by exists "workload".
  - by exists "workload".
  - left. exists (row "/sys/fs/cgroup" "cgroup2" "rw,nosuid,nodev,noexec,relatime").
    split; reflexivity.
  - by exists o, w'.
Defined.

End ConstructionMore.

(** ** Sub-groups do not disturb one another *)

Section Frame.

Import Spec Shape DelegatedScope.

Lemma touches_ret (ds : list string) {A} (a : A) : touches_only ds (ret a).
Proof. by intros st q Hq. Qed.

Lemma touches_eval (ds : list string) {A} (r : result A) : touches_only ds (eval r).
Proof. by intros st q Hq. Qed.

Lemma touches_subcgroups_add (ds : list string) (name : string) :
  touches_only ds (subcgroups_add name).
Proof. by intros st q Hq. Qed.

Lemma touches_bind (ds : list string) {A B} (m : M machine A) (k : A -> M machine B) :
  touches_only ds m -> (forall a, touches_only ds (k a)) -> touches_only ds (bind m k).
Proof.
  intros Hm Hk st q Hq. unfold bind. specialize (Hm st q Hq).
  destruct (m st) as [[a|e] st1]; simpl in *; [| done].
  by rewrite (Hk a st1 q Hq).
Qed.

Lemma touches_bind_eval (ds : list string) {A B} (a : A) (k : A -> M machine B) :
  touches_only ds (k a) -> touches_only ds (bind (eval (Return a)) k).
Proof. intros H st. apply H. Qed.

Lemma touches_bind_assoc (ds : list string) {A B C} (m : M machine A)
    (k : A -> M machine B) (k' : B -> M machine C) :
  touches_only ds (bind (bind m k) k') ->
  touches_only ds (bind m (fun a => bind (k a) k')).
Proof. intros H st. rewrite <- bind_assoc. apply H. Qed.

Lemma touches_for_in (ds : list string) {A B} (xs : list A) (acc : B)
    (body : A -> B -> M machine B) :
  (forall x b, x ∈ xs -> touches_only ds (body x b)) -> touches_only ds (for_in xs acc body).
Proof.
  revert acc. induction xs as [|x xs IH]; intros acc Hbody; simpl.
  - apply touches_ret.
  - apply touches_bind; [apply Hbody; left |].
    intros b. apply IH. intros y b' Hy. apply Hbody. by right.
Qed.

Lemma touches_remake (ds : list string) (p : string) :
  p ∈ ds -> touches_only ds (remake p).
Proof.
  intros Hp st q Hq. assert (Hne : q <> p) by (by intros ->).
  unfold os, Sys.rmdir, Sys.mkdir. unfold bind, try_except, syscall, ret. simpl.
  repeat (match goal with
          | |- context [match fault ?w ?h ?c with _ => _ end] =>
              destruct (fault w h c) as [[]|]; simpl
          | |- context [bool_decide ?P] => destruct (bool_decide_reflect P); simpl
          end);
    rewrite ?elem_of_union, ?elem_of_difference, ?elem_of_singleton; tauto.
Qed.

Lemma create_subcgroup_touches (name : string) (st : machine) :
  dirs_outside (subgroup_dirs (self st) name) (sys st)
    (sys (snd (create_subcgroup name st))).
Proof.
  unfold create_subcgroup. change (negb bool_of_builtin_str) with false. cbv iota.
  rewrite bind_run. cbv beta iota zeta delta [this].
  rewrite <- bind_assoc.
  set (o := self st). clearbody o. revert st.
  change (touches_only (subgroup_dirs o name)
            (bind (remake (_cgpath o +:+ "/" +:+ name))
               (fun _ =>
                  legacy <- eval (CgMode.__eq__ (_cgmode o) CgMode.LEGACY) ;;
                  result <- (if legacy : bool
                             then for_in controllers ([] ++ [_cgpath o +:+ "/" +:+ name])
                                    (fun c result =>
                                       try_except (os (Sys.rmdir (controller_dir o c name)))
                                         (fun e => if is_FileNotFoundError e
                                                   then Some (ret tt) else None) ;;
                                       os (Sys.mkdir (controller_dir o c name)) ;;
                                       ret (result ++ [controller_dir o c name]))
                             else ret ([] ++ [_cgpath o +:+ "/" +:+ name])) ;;
                  subcgroups_add name ;; ret (Some result)))).
  assert (Hprimary : primary_dir o name ∈ subgroup_dirs o name).
  { unfold subgroup_dirs, legacy_dirs. destruct (is_legacy o); apply list_elem_of_here. }
  apply touches_bind; [by apply touches_remake |]. intros _.
  unfold subgroup_dirs, is_legacy, CgMode.__eq__, CgMode.get_mode in *.
  destruct (CgMode._mode (_cgmode o)) as [m|]; [| by intros st q Hq].
  apply touches_bind_eval.
  assert (Hrest : forall result : list string,
             touches_only (if m =? CgMode.LEGACY
                           then legacy_dirs o name else [primary_dir o name])
               (subcgroups_add name ;; ret (Some result))).
  { intros result. apply touches_bind; [apply touches_subcgroups_add |].
    intros _. apply touches_ret. }
  destruct (m =? CgMode.LEGACY).
  - apply touches_bind; [| exact Hrest].
    apply touches_for_in. intros c acc Hc.
    apply touches_bind_assoc.
    apply touches_bind; [| intros _; apply touches_ret].
    apply touches_remake. by apply controllers_in_legacy_dirs.
  - apply touches_bind; [apply touches_ret | exact Hrest].
Qed.

Ltac differ H :=
  apply (f_equal (String.get 15)) in H; vm_compute in H; discriminate H.

Lemma subgroup_dirs_disjoint (o : t) (name other d : string) :
  active o -> name <> other ->
  d ∈ subgroup_dirs o other -> d ∉ subgroup_dirs o name.
Proof.
  intros [[Hmode Hpath] | [Hmode Hpath]] Hne Hother Hname.
  - rewrite subgroup_dirs_legacy in Hother, Hname by done.
    unfold legacy_dirs, primary_dir, controller_dir in Hother, Hname.
    rewrite Hpath in Hother, Hname.
    repeat (apply elem_of_cons in Hother as [-> | Hother]);
      try (by apply elem_of_nil in Hother);
      repeat (apply elem_of_cons in Hname as [Hname | Hname]);
      try (by apply elem_of_nil in Hname);
      first [ differ Hname | repeat apply String.app_inj in Hname; congruence ].
  - rewrite subgroup_dirs_unified in Hother, Hname by done.
    apply list_elem_of_singleton in Hother as ->.
    apply list_elem_of_singleton in Hname. unfold primary_dir in Hname.
    repeat apply String.app_inj in Hname. congruence.
Qed.

(** X9: creating a sub-group leaves every other sub-group of the scope
    alone: whether the call returns or raises, each directory of a sub-group
    of another name is on disk afterwards exactly if it was before. *)
Theorem create_subcgroup_spares_other_subgroups (name other : string) (st : machine) :
  active (self st) -> name <> other ->
  forall d, d ∈ subgroup_dirs (self st) other ->
            d ∈ dirs (sys (snd (create_subcgroup name st))) <-> d ∈ dirs (sys st).
Proof.
  intros Hactive Hne d Hd. apply create_subcgroup_touches.
  by apply (subgroup_dirs_disjoint _ name other).
Qed.

Lemma create_subcgroup_spares_other_subgroups_witness :
  let st := snd (create_subcgroup "manager" (legacy_scope ∅)) in
  "/sys/fs/cgroup/cpu/workload.slice/workload.scope/manager"
    ∈ dirs (sys (snd (create_subcgroup "workers" st))).
Proof.
  intros st.
  apply (create_subcgroup_spares_other_subgroups "workers" "manager" st).
  - left. split; reflexivity.
  - discriminate.
  - apply (bool_decide_unpack _). vm_compute. exact I.
  - apply (bool_decide_unpack _). vm_compute. exact I.
Defined.

(** X10: only a missing directory is forgiven.  When the kernel refuses to
    remove the sub-group's primary directory for any other reason (the
    cgroup is busy, say), [create_subcgroup] raises that error at once:
    nothing is made, nothing is registered, no other call follows. *)
Theorem create_subcgroup_rmdir_refused (name : string) (st : machine) (e : exn) :
  fault (sys st) (log (sys st)) (Rmdir (primary_dir (self st) name)) = Some e ->
  e <> FileNotFoundError ->
  create_subcgroup name st
  = (Raise e,
     {| self := self st;
        sys := record (Rmdir (primary_dir (self st) name)) (Some e) (sys st) |}).
Proof.
  intros Hfault Hne. unfold create_subcgroup, primary_dir in *.
  change (negb bool_of_builtin_str) with false. cbv iota.
  unfold this, os, Sys.rmdir. unfold bind, try_except, syscall. simpl.
  rewrite Hfault. simpl. by destruct e.
Qed.

Lemma create_subcgroup_rmdir_refused_witness :
  let st := {| self := self (unified_scope {["manager"]});
               sys := host_busy unified_table
                        {["/sys/fs/cgroup/workload.slice/workload.scope/manager"]} |} in
  fst (create_subcgroup "manager" st) = Raise (OSError 16)
  /\ dirs (sys (snd (create_subcgroup "manager" st))) = dirs (sys st).
Proof.
  intros st.
  rewrite (create_subcgroup_rmdir_refused "manager" st (OSError 16)); [| reflexivity | discriminate].
  split; reflexivity.
Defined.

End Frame.

(** ** The first failure ends a method *)

Section FirstFailure.

Import Spec Shape DelegatedScope.

Lemma stops_ret {A} (a : A) : stops_at_failure (ret a).
Proof. by intros st e st'. Qed.

Lemma stops_subcgroups_add (name : string) : stops_at_failure (subcgroups_add name).
Proof. by intros st e st'. Qed.

Lemma stops_bind {A B} (m : M machine A) (k : A -> M machine B) :
  stops_at_failure m -> (forall a, stops_at_failure (k a)) -> stops_at_failure (bind m k).
Proof.
  intros Hm Hk st e st'. rewrite bind_run.
  destruct (m st) as [[a|e1] st1] eqn:Hrun.
  - apply Hk.
  - intros [= <- <-]. by apply (Hm st).
Qed.

Lemma stops_bind_eval {A B} (a : A) (k : A -> M machine B) :
  stops_at_failure (k a) -> stops_at_failure (bind (eval (Return a)) k).
Proof. intros H st. apply H. Qed.

Lemma stops_bind_assoc {A B C} (m : M machine A) (k : A -> M machine B)
    (k' : B -> M machine C) :
  stops_at_failure (bind (bind m k) k') ->
  stops_at_failure (bind m (fun a => bind (k a) k')).
Proof. intros H st. rewrite <- bind_assoc. apply H. Qed.

Lemma stops_for_in {A B} (xs : list A) (acc : B) (body : A -> B -> M machine B) :
  (forall x b, stops_at_failure (body x b)) -> stops_at_failure (for_in xs acc body).
Proof.
  intros Hbody. revert acc. induction xs as [|x xs IH]; intros acc; simpl.
  - apply stops_ret.
  - apply stops_bind; [apply Hbody | intros b; apply IH].
Qed.

Ltac run_blocks :=
  unfold os, Sys.with_open_w_write, Sys.rmdir, Sys.mkdir, Sys.open_w, Sys.write;
  unfold bind, try_except, syscall, ret; simpl;
  repeat (match goal with
          | |- context [match fault ?w ?h ?c with _ => _ end] =>
              destruct (fault w h c) as [[]|]; simpl
          | |- context [bool_decide ?P] => destruct (bool_decide_reflect P); simpl
          end).

Lemma stops_remake (p : string) : stops_at_failure (remake p).
Proof.
  intros st e st'. run_blocks; intros [= <- <-]; simpl; rewrite last_snoc; eauto.
Qed.

Lemma stops_write (p data : string) :
  stops_at_failure (os (Sys.with_open_w_write p data)).
Proof.
  intros st e st'. run_blocks; intros [= <- <-]; simpl; rewrite last_snoc; eauto.
Qed.

Lemma create_subcgroup_stops (name : string) (st : machine) (e : exn) (st' : machine) :
  is_Some (CgMode._mode (_cgmode (self st))) ->
  create_subcgroup name st = (Raise e, st') ->
  exists c, last (log (sys st')) = Some (c, Some e).
Proof.
  intros [m Hmode] Hrun. unfold create_subcgroup in Hrun.
  change (negb bool_of_builtin_str) with false in Hrun. cbv iota in Hrun.
  rewrite bind_run in Hrun. cbv beta iota zeta delta [this] in Hrun.
  unfold CgMode.__eq__, CgMode.get_mode in Hrun. rewrite Hmode in Hrun.
  clear Hmode. set (o := self st) in Hrun. clearbody o.
  match type of Hrun with
  | ?prog st = _ => assert (Hstops : stops_at_failure prog); [| exact (Hstops _ _ _ Hrun)]
  end.
  apply stops_bind_assoc. apply stops_bind; [apply stops_remake |]. intros _.
  apply stops_bind_eval.
  apply stops_bind;
    [| intros result; apply stops_bind; [apply stops_subcgroups_add | intros _; apply stops_ret]].
  destruct (m =? CgMode.LEGACY); [| apply stops_ret].
  apply stops_for_in. intros c acc. apply stops_bind_assoc.
  apply stops_bind; [apply stops_remake | intros _; apply stops_ret].
Qed.

Lemma migrate_known_stops (name : string) (pid : Z) (st : machine) (e : exn) (st' : machine) :
  is_Some (CgMode._mode (_cgmode (self st))) ->
  name ∈ _subcgroups (self st) ->
  migrate_pid name pid st = (Raise e, st') ->
  exists c, last (log (sys st')) = Some (c, Some e).
Proof.
  intros [m Hmode] Hknown Hrun. unfold migrate_pid in Hrun.
  rewrite bind_run in Hrun. cbv beta iota zeta delta [this] in Hrun.
  rewrite bool_decide_eq_true_2 in Hrun by done.
  cbv beta iota zeta delta [negb] in Hrun.
  rewrite bind_run in Hrun. cbv beta iota zeta delta [ret] in Hrun.
  rewrite bind_run in Hrun. cbv beta iota zeta delta [this] in Hrun.
  unfold CgMode.__eq__, CgMode.get_mode in Hrun. rewrite Hmode in Hrun.
  clear Hmode Hknown. set (o := self st) in Hrun. clearbody o.
  match type of Hrun with
  | ?prog st = _ => assert (Hstops : stops_at_failure prog); [| exact (Hstops _ _ _ Hrun)]
  end.
  apply stops_bind; [apply stops_write |]. intros _.
  apply stops_bind_eval.
  destruct (m =? CgMode.LEGACY); [| apply stops_ret].
  apply stops_for_in. intros c []. apply stops_write.
Qed.

(** X11: on a scope that has its mode, [create_subcgroup], [migrate_pid] and
    [delegate_resource_control] stop at the first call that fails: the
    exception they raise is the one the last call they made ended with.
    Nothing is retried, nothing is undone, nothing else is called. *)
Theorem methods_stop_at_first_failure (st : machine) (e : exn) (st' : machine) :
  is_Some (CgMode._mode (_cgmode (self st))) ->
  (forall name, create_subcgroup name st = (Raise e, st') ->
                exists c, last (log (sys st')) = Some (c, Some e))
  /\ (forall name pid, migrate_pid name pid st = (Raise e, st') ->
                       exists c, last (log (sys st')) = Some (c, Some e))
  /\ (delegate_resource_control st = (Raise e, st') ->
      exists c, last (log (sys st')) = Some (c, Some e)).
Proof.
  intros Hmode. split; [| split].
  - intros name. by apply create_subcgroup_stops.
  - intros name pid Hrun.
    destruct (decide (name ∈ _subcgroups (self st))) as [Hknown | Hnew].
    + by apply (migrate_known_stops name pid st).
    + rewrite (migrate_unknown _ _ _ Hnew) in Hrun.
      destruct (create_subcgroup name st) as [[v|e1] st1] eqn:Hcreate.
      * destruct (create_subcgroup_spec _ _ _ _ Hcreate) as ((Hm & _) & _ & Hret & _).
        destruct (Hret v eq_refl) as (_ & _ & Hk).
        apply (migrate_known_stops name pid st1); [by rewrite Hm | | done].
        rewrite Hk. by apply elem_of_union_l, elem_of_singleton.
      * injection Hrun as <- <-. by apply (create_subcgroup_stops name st).
  - destruct Hmode as [m Hmode]. unfold delegate_resource_control.
    rewrite bind_run. cbv beta iota zeta delta [this].
    unfold CgMode.__ne__, CgMode.__eq__, CgMode.get_mode. rewrite Hmode.
    rewrite bind_run. cbv beta iota zeta delta [eval].
    destruct (negb (m =? CgMode.UNIFIED)); [done |]. apply stops_write.
Qed.

Lemma methods_stop_at_first_failure_witness :
  let st := {| self := self (unified_scope ∅);
               sys := host_busy unified_table ∅ |} in
  exists c, last (log (sys (snd (migrate_pid "manager" 4242 st)))) = Some (c, Some (OSError 16)).
Proof.
  intros st.
  destruct (migrate_pid "manager" 4242 st) as [r st'] eqn:Hrun.
  assert (Hr : r = Raise (OSError 16)).
  { apply (f_equal fst) in Hrun. vm_compute in Hrun. by symmetry. }
  subst r.
  destruct (methods_stop_at_first_failure st (OSError 16) st') as (_ & Hmigrate & _);
    [by eexists |].
  exact (Hmigrate "manager" 4242 Hrun).
Defined.

End FirstFailure.

(** ** Migrating again *)

Section MigrateAgain.

Import Spec Shape DelegatedScope.

Lemma written_lookup_other (fs : list string) (data : string) (f : gmap string string)
    (q : string) :
  q ∉ fs -> written fs data f !! q = f !! q.
Proof.
  induction fs as [|p fs IH] using rev_ind; [done |].
  rewrite written_snoc, not_elem_of_app, list_elem_of_singleton. intros [Hq Hne].
  rewrite lookup_insert_ne by done. by apply IH.
Qed.

Lemma written_over (fs : list string) (d1 d2 : string) (f : gmap string string) :
  written fs d2 (written fs d1 f) = written fs d2 f.
Proof.
  apply map_eq. intros q. destruct (decide (q ∈ fs)) as [Hq | Hq].
  - by rewrite !written_lookup.
  - by rewrite !written_lookup_other.
Qed.

(** X12: migrating into a known sub-group a second time leaves no trace of
    the first: after both calls have returned, the files are as if only the
    second pid had been written, the directories and the object are as at
    the start; with the same pid twice, the second call changes no file. *)
Theorem migrate_pid_again (name : string) (pid1 pid2 : Z) (st st1 st2 : machine) :
  name ∈ _subcgroups (self st) ->
  migrate_pid name pid1 st = (Return tt, st1) ->
  migrate_pid name pid2 st1 = (Return tt, st2) ->
  files (sys st2) = written (procs_files (self st) name) (Py.str pid2) (files (sys st))
  /\ (pid1 = pid2 -> files (sys st2) = files (sys st1))
  /\ dirs (sys st2) = dirs (sys st)
  /\ self st2 = self st.
Proof.
  intros Hknown Hrun1 Hrun2.
  destruct (migrate_known_spec _ _ _ _ _ Hknown Hrun1) as (Hself1 & (_ & Hdirs1 & _) & Hret1 & _).
  rewrite <- Hself1 in Hknown.
  destruct (migrate_known_spec _ _ _ _ _ Hknown Hrun2) as (Hself2 & (_ & Hdirs2 & _) & Hret2 & _).
  destruct (Hret1 eq_refl) as [Hfiles1 _]. destruct (Hret2 eq_refl) as [Hfiles2 _].
  rewrite Hself1 in Hfiles2.
  split; [by rewrite Hfiles2, Hfiles1, written_over |].
  split; [| split; congruence].
  intros <-. by rewrite Hfiles2, Hfiles1, written_over.
Qed.

Lemma migrate_pid_again_witness :
  exists st1 st2,
    migrate_pid "manager" 4242 (legacy_scope {["manager"]}) = (Return tt, st1)
    /\ migrate_pid "manager" 4243 st1 = (Return tt, st2)
    /\ files (sys st2)
       = written (procs_files (self (legacy_scope {["manager"]})) "manager") "4243" ∅.
Proof.
  destruct (migrate_pid "manager" 4242 (legacy_scope {["manager"]}))
    as [[[]|e] st1] eqn:Hrun1; [| vm_compute in Hrun1; discriminate Hrun1].
  destruct (migrate_pid "manager" 4243 st1) as [[[]|e] st2] eqn:Hrun2.
  - exists st1, st2. split; [done |]. split; [done |].
    destruct (migrate_pid_again "manager" 4242 4243 (legacy_scope {["manager"]}) st1 st2)
      as [Hfiles _]; [| done | done | exact Hfiles].
    apply (bool_decide_unpack _). vm_compute. exact I.
  - exfalso. vm_compute in Hrun1. injection Hrun1 as <-.
    vm_compute in Hrun2. discriminate Hrun2.
Defined.

End MigrateAgain.

(** ** The detected mode, printed and compared *)

Section ModeNames.

Import Spec Shape.

(** X13: the name of a detected mode.  For an object detection returned,
    [__str__] gives unified, legacy or hybrid according to the mode, and
    fails with [AttributeError] when detection left without setting one; it
    never gives the empty text. *)
Theorem cgmode_str_of_detected (w w1 : world) (cg : CgMode.t) :
  CgMode.__init__ w = (Return cg, w1) ->
  cg = Unified /\ CgMode.__str__ cg = Return "unified"
  \/ cg = Legacy /\ CgMode.__str__ cg = Return "legacy"
  \/ cg = Hybrid /\ CgMode.__str__ cg = Return "hybrid"
  \/ CgMode._mode cg = None
     /\ CgMode.__str__ cg = Raise (AttributeError "'CgMode' object has no attribute '_mode'").
Proof.
  intros Hrun. destruct (detected_modes _ _ _ Hrun) as [[Hnone | [-> | [-> | ->]]] _]; auto.
  right; right; right. split; [done |].
  unfold CgMode.__str__, CgMode.get_mode. by rewrite Hnone.
Qed.

Lemma cgmode_str_of_detected_witness :
  CgMode.__str__ (match fst (CgMode.__init__ (host hybrid_table)) with
                  | Return cg => cg
                  | Raise _ => Unified
                  end) = Return "hybrid".
Proof.
  destruct (CgMode.__init__ (host hybrid_table)) as [[cg|e] w1] eqn:Hrun;
    [| vm_compute in Hrun; discriminate Hrun].
  simpl.
  destruct (cgmode_str_of_detected _ _ _ Hrun)
    as [[-> _] | [[-> _] | [[_ Hstr] | [Hnone _]]]];
    [vm_compute in Hrun; discriminate Hrun .. | exact Hstr |].
  vm_compute in Hrun. injection Hrun as <- _. discriminate Hnone.
Defined.

(** X14: two objects that detection returned with a mode compare equal
    exactly when they are in the same mode, and exactly when they print the
    same name; compared with anything that is neither an int nor a CgMode,
    an object is unequal. *)
Theorem cgmode_eq_of_detected (w w1 w' w1' : world) (a b : CgMode.t) :
  CgMode.__init__ w = (Return a, w1) ->
  CgMode.__init__ w' = (Return b, w1') ->
  is_Some (CgMode._mode a) -> is_Some (CgMode._mode b) ->
  (cgmode_eq a (PyCgMode b) = Return true <-> a = b)
  /\ (cgmode_eq a (PyCgMode b) = Return true <-> CgMode.__str__ a = CgMode.__str__ b)
  /\ cgmode_eq a (PyCgMode b) = cgmode_eq b (PyCgMode a)
  /\ cgmode_eq a PyOther = Return false.
Proof.
  intros Ha Hb [ma Hma] [mb Hmb].
  destruct (detected_modes _ _ _ Ha) as [[Hnone | [-> | [-> | ->]]] _];
    [congruence | ..];
    (destruct (detected_modes _ _ _ Hb) as [[Hnone | [-> | [-> | ->]]] _];
     [congruence | ..]);
    (split; [| split; [| split]]; first [ reflexivity | split; (done || discriminate) ]).
Qed.

Lemma cgmode_eq_of_detected_witness :
  cgmode_eq Legacy (PyCgMode Hybrid) = Return false.
Proof.
  destruct (cgmode_eq_of_detected (host legacy_table) (record DiskPartitions None (host legacy_table))
              (host hybrid_table) (record DiskPartitions None (host hybrid_table))
              Legacy Hybrid)
    as (Heq & _); [reflexivity | reflexivity | by eexists | by eexists |].
  destruct (cgmode_eq Legacy (PyCgMode Hybrid)) as [[]|e] eqn:Hcmp; [| done | done].
  exfalso. destruct Heq as [Heq _]. specialize (Heq eq_refl). discriminate Heq.
Defined.

End ModeNames.

(** ** A failed creation, and migration on a host that does not fail *)

Section Provisioning.

Import Spec Shape DelegatedScope.

(** X15: a creation that fails registers nothing.  When [create_subcgroup]
    raises, the object is as it was (so the name is known afterwards only if
    it was before, and a later [migrate_pid] will try the creation again);
    no file has changed, and only directories of this very sub-group can
    have been removed or made. *)
Theorem create_subcgroup_failure_registers_nothing (name : string) (st : machine)
    (e : exn) (st' : machine) :
  create_subcgroup name st = (Raise e, st') ->
  self st' = self st
  /\ files (sys st') = files (sys st)
  /\ dirs_outside (subgroup_dirs (self st) name) (sys st) (sys st')
  /\ calls_only (dir_call_on (subgroup_dirs (self st) name)) (sys st) (sys st').
Proof.
  intros Hrun.
  destruct (create_subcgroup_spec _ _ _ _ Hrun) as (_ & (_ & Hfiles & Hcalls) & _ & Hraise & _).
  split; [by apply (Hraise e) |]. split; [done |]. split; [| done].
  pose proof (create_subcgroup_touches name st) as Htouch. by rewrite Hrun in Htouch.
Qed.

Lemma create_subcgroup_failure_registers_nothing_witness :
  let st := {| self := self (legacy_scope ∅); sys := host_busy legacy_table ∅ |} in
  _subcgroups (self (snd (create_subcgroup "manager" st))) = ∅.
Proof.
  intros st. destruct (create_subcgroup "manager" st) as [[v|e] st'] eqn:Hrun.
  - vm_compute in Hrun. discriminate Hrun.
  - destruct (create_subcgroup_failure_registers_nothing _ _ _ _ Hrun) as [Hself _].
    simpl. by rewrite Hself.
Defined.

(** X16: on a host where no call fails, [migrate_pid] returns for a
    sub-group known or not, on every scope that has its mode: afterwards the
    sub-group is known, each of its process-list files holds the decimal
    pid, and, if it was not known before, its directories are on disk. *)
Theorem migrate_pid_on_calm_host (name : string) (pid : Z) (st : machine) :
  calm (sys st) -> is_Some (CgMode._mode (_cgmode (self st))) ->
  exists st',
    migrate_pid name pid st = (Return tt, st')
    /\ name ∈ _subcgroups (self st')
    /\ (forall f, f ∈ procs_files (self st) name -> files (sys st') !! f = Some (Py.str pid))
    /\ (name ∉ _subcgroups (self st) ->
        forall d, d ∈ subgroup_dirs (self st) name -> d ∈ dirs (sys st')).
Proof.
  intros Hcalm Hmode.
  assert (Hknown : forall s, calm (sys s) -> is_Some (CgMode._mode (_cgmode (self s))) ->
                     name ∈ _subcgroups (self s) ->
                     exists s', migrate_pid name pid s = (Return tt, s')
                                /\ self s' = self s /\ dirs (sys s') = dirs (sys s)
                                /\ forall f, f ∈ procs_files (self s) name ->
                                             files (sys s') !! f = Some (Py.str pid)).
  { intros s Hc Hm Hin. destruct (migrate_pid name pid s) as [r s'] eqn:Hrun.
    destruct (migrate_known_spec _ _ _ _ _ Hin Hrun)
      as (Hself & (_ & Hdirs & _) & Hret & Hreturns).
    rewrite (Hreturns Hc Hm) in *. destruct (Hret eq_refl) as [Hfiles _].
    exists s'. split; [done |]. split; [done |]. split; [done |].
    intros f Hf. rewrite Hfiles. by apply written_lookup. }
  destruct (decide (name ∈ _subcgroups (self st))) as [Hin | Hnew].
  - destruct (Hknown st Hcalm Hmode Hin) as (st' & Hrun & Hself & _ & Hfiles).
    exists st'. split; [done |]. split; [by rewrite Hself |]. split; [done |]. done.
  - rewrite (migrate_unknown _ _ _ Hnew).
    destruct (create_subcgroup_calm name st Hcalm Hmode) as [st1 Hcreate]. rewrite Hcreate.
    destruct (create_subcgroup_spec _ _ _ _ Hcreate) as (Hscope & (Hhost & _) & Hret & _).
    destruct (Hret _ eq_refl) as (_ & Hdirs & Hreg).
    assert (Hin1 : name ∈ _subcgroups (self st1))
      by (rewrite Hreg; by apply elem_of_union_l, elem_of_singleton).
    destruct (Hknown st1) as (st' & Hrun & Hself & Hdirs' & Hfiles);
      [by eapply calm_same_host | by destruct Hscope as [-> _] | done |].
    exists st'. split; [done |]. split; [by rewrite Hself |]. split.
    + intros f Hf. apply Hfiles. by rewrite (procs_files_same_scope (self st)).
    + intros _ d Hd. rewrite Hdirs', Hdirs. apply elem_of_union_l. by apply elem_of_list_to_set.
Qed.

Lemma migrate_pid_on_calm_host_witness :
  exists st',
    migrate_pid "workers" 4243 (legacy_scope ∅) = (Return tt, st')
    /\ files (sys st') !! "/sys/fs/cgroup/pids/workload.slice/workload.scope/workers/cgroup.procs"
       = Some "4243".
Proof.
  destruct (migrate_pid_on_calm_host "workers" 4243 (legacy_scope ∅))
    as (st' & Hrun & _ & Hfiles & _).
  - intros h c. reflexivity.
  - by eexists.
  - exists st'. split; [done |]. apply Hfiles.
    apply (bool_decide_unpack _). vm_compute. exact I.
Defined.

End Provisioning.

(** ** The mount table as detection reads it *)

Section MountTable.

Import Spec Shape.

Lemma cgroup_mounts_elsewhere (parts : list sdiskpart) (mp : string) :
  Py.startswith mp "/sys/fs/cgroup" = false -> CgMode.cgroup_mounts parts !! mp = None.
Proof.
  intros Hmp. unfold CgMode.cgroup_mounts.
  induction parts as [|p parts IH] using rev_ind; [done |].
  rewrite foldl_snoc.
  destruct (Py.startswith (mountpoint p) "/sys/fs/cgroup") eqn:Hp; [| done].
  rewrite lookup_insert_ne; [done |]. intros Heq. congruence.
Qed.

(** X17: the table detection works from.  Looking a mount point up in it
    gives the row the mount table lists last for that mount point, for mount
    points at or under /sys/fs/cgroup, and nothing for any other: rows
    elsewhere are dropped, and a later row replaces an earlier one. *)
Theorem cgroup_mounts_lookup_spec (parts : list sdiskpart) (mp : string) :
  CgMode.cgroup_mounts parts !! mp
  = if Py.startswith mp "/sys/fs/cgroup" then mount_at parts mp else None.
Proof.
  destruct (Py.startswith mp "/sys/fs/cgroup") eqn:Hmp.
  - by apply cgroup_mounts_lookup.
  - by apply cgroup_mounts_elsewhere.
Qed.

Lemma substring_of_prefix (a b : string) :
  String.substring 0 (String.length a) (a +:+ b) = a.
Proof.
  induction a as [|c a IH]; [by destruct b |].
  change (String c (String.substring 0 (String.length a) (a +:+ b)) = String c a).
  by rewrite IH.
Qed.

Lemma substring_decompose (s : string) (i n : nat) :
  String.length (String.substring i n s) = n ->
  exists post, s = String.substring 0 i s +:+ String.substring i n s +:+ post.
Proof.
  revert i n. induction s as [|c s IH]; intros i n Hlen.
  - destruct i, n; simpl in *; try discriminate Hlen; by exists "".
  - destruct i as [|i].
    + destruct n as [|n]; simpl in *; [by exists (String c s) |].
      destruct (IH 0%nat n) as [post Hpost]; [by injection Hlen |].
      exists post. replace (String.substring 0 0 s) with "" in Hpost by (by destruct s).
      change (String c s = String c (String.substring 0 n s +:+ post)).
      by rewrite Hpost at 1.
    + simpl in *. destruct (IH i n Hlen) as [post Hpost]. exists post.
      change (String c s
              = String c (String.substring 0 i s +:+ String.substring i n s +:+ post)).
      by rewrite Hpost at 1.
Qed.

Lemma occurs_in_iff (sub s : string) :
  occurs_in sub s <-> exists pre post, s = pre +:+ sub +:+ post.
Proof.
  split.
  - intros [i Hi].
    destruct (substring_decompose s i (String.length sub)) as [post Hpost];
      [by rewrite Hi |].
    rewrite Hi in Hpost. eauto.
  - intros (pre & post & ->). exists (String.length pre).
    rewrite substring_skip. apply substring_of_prefix.
Qed.

(** X18: the name=systemd option is looked for as a piece of text.  The
    named-hierarchy test holds for a row exactly when its file system type is
    the one asked for and its option text has name=systemd somewhere in it,
    whatever comes before and after; for no row at all it fails. *)
Theorem named_hierarchy_is_substring (mount : option sdiskpart) (ty : string) :
  CgMode.named_hierarchy_is mount ty = true
  <-> exists m, mount = Some m /\ fstype m = ty
                /\ exists pre post, opts m = pre +:+ "name=systemd" +:+ post.
Proof.
  unfold CgMode.named_hierarchy_is. destruct mount as [m|].
  - rewrite andb_true_iff, String.eqb_eq, negb_true_iff, find_spec, occurs_in_iff by done.
    split; [intros [? ?]; by exists m | intros (? & [= <-] & ? & ?); done].
  - split; [done | intros (? & ? & _); done].
Qed.

End MountTable.
